(** * Python-Video-Annotater: the capture buffer and its players

  A shallow embedding of [src/data.py] (class [Data], the timeline store and
  the gap reconciler) and of the parts of [src/player.py] that drive it
  (class [VideoPlayer], the capture loop and stroke tracker, and class
  [AnnotatedPlayer], the playback reconstructor) and of the file lookup
  of [watch] in [src/anno.py], followed by the properties of the design
  document checked against that code.

  Conventions.
  - Python [float] is IEEE binary64: Rocq's primitive [float].
  - Python [int] is [Z]; [str] is [string]; a [list] is a [list].
  - A [dict] is a [gmap]; an attribute that may not exist yet is an
    [option].
  - A function that can raise returns a [result]; one that cannot returns
    its value directly.
  - A numpy array is the list of its rows along axis 0. *)

From Stdlib Require Import ZArith Ascii.
From Stdlib Require Import Floats.PrimFloat Floats.FloatOps Floats.SpecFloat.
From stdpp Require Import gmap strings list fin_maps pretty.

Set Warnings "-inexact-float".
Local Open Scope Z_scope.

(* ===================================================================== *)
(** * The fragment of the Python runtime the code relies on *)
(* ===================================================================== *)

Module Py.

(** Exceptions the modelled code can raise. *)
Inductive exn : Set :=
| ValueError
| TypeError
| KeyError
| AttributeError
| OverflowError
| ZeroDivisionError
| FileNotFoundError.

Inductive result (A : Type) : Type :=
| Ok (a : A)
| Raise (e : exn).
Global Arguments Ok {A} a.
Global Arguments Raise {A} e.

Definition bind {A B} (r : result A) (k : A → result B) : result B :=
  match r with
  | Ok a => k a
  | Raise e => Raise e
  end.

Definition returns {A} (r : result A) : Prop := ∃ a, r = Ok a.

(** Python truthiness of a [float] comparison [a < b]. *)
Definition flt (a b : float) : bool := PrimFloat.ltb a b.

(** A numpy array, as the list of its rows along axis 0. *)
Definition ndarray : Type := list (list Z).

(** What [cv2.line] and [cv2.putText] add to a frame. *)
Inductive draw_op : Type :=
| Line (pt1 pt2 : Z * Z)
| Text (text : string) (org : Z * Z).

(** A video frame: its pixel rows, and what has been drawn on it since it
    was decoded, in drawing order.  [frame.copy()] is the value itself. *)
Record image : Type := Image {
  pixels : ndarray;
  drawn : list draw_op
}.

(** [frame.shape[0]] and [frame.shape[1]]. *)
Definition shape0 (f : image) : Z := Z.of_nat (length f.(pixels)).
Definition shape1 (f : image) : Z :=
  Z.of_nat (length (hd [] f.(pixels))).

Definition cv2_line (frame : image) (pt1 pt2 : Z * Z) : image :=
  Image frame.(pixels) (frame.(drawn) ++ [Line pt1 pt2]).

Definition cv2_putText (frame : image) (text : string) (org : Z * Z)
  : image :=
  Image frame.(pixels) (frame.(drawn) ++ [Text text org]).

(** [np.array([])]. *)
Definition np_array_empty : ndarray := [].

(** [np.concatenate(arrays, axis=0)]: numpy refuses an empty sequence
    ("need at least one array to concatenate"). *)
Definition np_concatenate (arrays : list ndarray) : result ndarray :=
  match arrays with
  | [] => Raise ValueError
  | _ => Ok (concat arrays)
  end.

(** [int(x)] of a float: truncation toward zero; [ValueError] on a NaN,
    [OverflowError] on an infinity. *)
Definition int_of_float (x : float) : result Z :=
  match Prim2SF x with
  | S754_zero _ => Ok 0
  | S754_infinity _ => Raise OverflowError
  | S754_nan => Raise ValueError
  | S754_finite s m e =>
      let magnitude := Z.shiftl (Z.pos m) e in
      Ok (if s then - magnitude else magnitude)
  end.

(** ["%02d" % n] for [0 <= n]. *)
Definition pad2 (n : Z) : string :=
  if n <? 10 then "0" +:+ pretty n else pretty n.

(** [str(datetime.timedelta(milliseconds=ms)).split(".")[0]] for an int
    [ms]: the normalised days and seconds, printed as
    ["[D day[s], ]H:MM:SS"]; the fractional part, if any, is cut by the
    split.  [timedelta] refuses more than 999999999 days. *)
Definition timedelta_str (ms : Z) : result string :=
  let days := ms `div` 86400000 in
  let seconds := (ms `mod` 86400000) `div` 1000 in
  if 999999999 <? Z.abs days then Raise OverflowError
  else
    let mm := seconds `div` 60 in
    let ss := seconds `mod` 60 in
    let hh := mm `div` 60 in
    let mm := mm `mod` 60 in
    let s := pretty hh +:+ ":" +:+ pad2 mm +:+ ":" +:+ pad2 ss in
    Ok (if days =? 0 then s
        else pretty days +:+ " day"
             +:+ (if Z.abs days =? 1 then "" else "s") +:+ ", " +:+ s).

End Py.

(** [x ← r; k] runs [r] and, unless it raised, continues with [k]. *)
Global Instance result_bind : MBind Py.result := λ A B k r, Py.bind r k.
Global Instance result_ret : MRet Py.result := λ A a, Py.Ok a.
Global Instance result_fmap : FMap Py.result := λ A B f r,
  match r with
  | Py.Ok a => Py.Ok (f a)
  | Py.Raise e => Py.Raise e
  end.

(* ===================================================================== *)
(** * [src/data.py]: class [Data] *)
(* ===================================================================== *)

Module Data.
Import Py.

Definition point : Type := Z * Z.

(** The value stored under ["anno"]: the empty list [[]], or the
    two-element list [[command, [x, y]]]. *)
Inductive anno_t : Type :=
| AnnoEmpty
| AnnoCmd (command : string) (p : point).

(** The dict stored under one frame index of [self.annotations]. *)
Record entry : Type := Entry {
  idx : Z;
  org_idx : Z;
  time_str : string;
  anno : anno_t;
  timestamp : float
}.

(** The dict stored under the reserved key ["metadata"]. *)
Record metadata : Type := Metadata {
  md_video_name : string;
  md_frame_rate : Z;
  md_frame_count : Z;
  md_frame_width : Z;
  md_frame_height : Z;
  md_sample_rate : Z;
  md_channels : Z
}.

(** The attributes of a [Data] object.  [self.annotations] is declared
    [Dict[int, Dict[...]]]; the only other key it ever receives is the
    string ["metadata"] (in [save_annotations]), kept here in
    [annotations_metadata].  [max_frame] (no final s) is the attribute
    that [clean] creates; it does not exist before. *)
Record t : Type := Mk {
  in_path : string;
  out_path : string;
  name : string;
  in_file_path : string;
  annotated_dir : string;
  annotated_name : string;
  out_file_path : string;
  frame_rate : Z;
  frame_count : Z;
  frame_width : Z;
  frame_height : Z;
  frames : list (float * Z * image);
  audio_data : list (float * ndarray);
  annotations : gmap Z entry;
  annotations_metadata : option metadata;
  curr_frame : Z;
  max_frames : Z;
  sample_rate : Z;
  channels : Z;
  audio_name : string;
  audio_path : string;
  max_frame : option Z
}.

Definition set_frames (v : list (float * Z * image)) (d : t) : t :=
  Mk d.(in_path) d.(out_path) d.(name) d.(in_file_path) d.(annotated_dir)
     d.(annotated_name) d.(out_file_path) d.(frame_rate) d.(frame_count)
     d.(frame_width) d.(frame_height) v d.(audio_data) d.(annotations)
     d.(annotations_metadata) d.(curr_frame) d.(max_frames)
     d.(sample_rate) d.(channels) d.(audio_name) d.(audio_path)
     d.(max_frame).

Definition set_audio_data (v : list (float * ndarray)) (d : t) : t :=
  Mk d.(in_path) d.(out_path) d.(name) d.(in_file_path) d.(annotated_dir)
     d.(annotated_name) d.(out_file_path) d.(frame_rate) d.(frame_count)
     d.(frame_width) d.(frame_height) d.(frames) v d.(annotations)
     d.(annotations_metadata) d.(curr_frame) d.(max_frames)
     d.(sample_rate) d.(channels) d.(audio_name) d.(audio_path)
     d.(max_frame).

Definition set_annotations (v : gmap Z entry) (d : t) : t :=
  Mk d.(in_path) d.(out_path) d.(name) d.(in_file_path) d.(annotated_dir)
     d.(annotated_name) d.(out_file_path) d.(frame_rate) d.(frame_count)
     d.(frame_width) d.(frame_height) d.(frames) d.(audio_data) v
     d.(annotations_metadata) d.(curr_frame) d.(max_frames)
     d.(sample_rate) d.(channels) d.(audio_name) d.(audio_path)
     d.(max_frame).

Definition set_annotations_metadata (v : option metadata) (d : t) : t :=
  Mk d.(in_path) d.(out_path) d.(name) d.(in_file_path) d.(annotated_dir)
     d.(annotated_name) d.(out_file_path) d.(frame_rate) d.(frame_count)
     d.(frame_width) d.(frame_height) d.(frames) d.(audio_data)
     d.(annotations) v d.(curr_frame) d.(max_frames)
     d.(sample_rate) d.(channels) d.(audio_name) d.(audio_path)
     d.(max_frame).

Definition set_curr_frame (v : Z) (d : t) : t :=
  Mk d.(in_path) d.(out_path) d.(name) d.(in_file_path) d.(annotated_dir)
     d.(annotated_name) d.(out_file_path) d.(frame_rate) d.(frame_count)
     d.(frame_width) d.(frame_height) d.(frames) d.(audio_data)
     d.(annotations) d.(annotations_metadata) v d.(max_frames)
     d.(sample_rate) d.(channels) d.(audio_name) d.(audio_path)
     d.(max_frame).

Definition set_max_frames (v : Z) (d : t) : t :=
  Mk d.(in_path) d.(out_path) d.(name) d.(in_file_path) d.(annotated_dir)
     d.(annotated_name) d.(out_file_path) d.(frame_rate) d.(frame_count)
     d.(frame_width) d.(frame_height) d.(frames) d.(audio_data)
     d.(annotations) d.(annotations_metadata) d.(curr_frame) v
     d.(sample_rate) d.(channels) d.(audio_name) d.(audio_path)
     d.(max_frame).

Definition set_max_frame (v : option Z) (d : t) : t :=
  Mk d.(in_path) d.(out_path) d.(name) d.(in_file_path) d.(annotated_dir)
     d.(annotated_name) d.(out_file_path) d.(frame_rate) d.(frame_count)
     d.(frame_width) d.(frame_height) d.(frames) d.(audio_data)
     d.(annotations) d.(annotations_metadata) d.(curr_frame)
     d.(max_frames) d.(sample_rate) d.(channels) d.(audio_name)
     d.(audio_path) v.

(** ** Lengths (the [get_*_length] properties) *)

Definition get_frames_length (d : t) : Z := Z.of_nat (length d.(frames)).

Definition get_audio_data_length (d : t) : Z :=
  Z.of_nat (length d.(audio_data)).

(** [len(self.annotations)] counts the reserved key too. *)
Definition get_annotations_length (d : t) : Z :=
  Z.of_nat (size d.(annotations))
  + (if d.(annotations_metadata) is Some _ then 1 else 0).

Definition get_max_frames (d : t) : Z := d.(max_frames).

(** ** Gap reconciler *)

(** [identify_video_gaps]: the loop over [range(1, len(self.frames))]. *)
Definition identify_video_gaps (threshold : float) (d : t)
  : list (float * float) :=
  flat_map
    (λ i : nat,
       match d.(frames) !! (i - 1)%nat, d.(frames) !! i with
       | Some (previous_time, _, _), Some (current_time, _, _) =>
           if flt threshold (current_time - previous_time)%float
           then [(previous_time, current_time)]
           else []
       | _, _ => []
       end)
    (seq 1 (length d.(frames) - 1)).

(** The cursor [current_audio_index] only moves forward, so the state of
    the walk is the not yet visited suffix
    [self.audio_data[current_audio_index:]] and the list [synced_audio]
    built so far. *)

(** "Add audio before the gap": the first inner [while]. *)
Fixpoint add_before_gap (gap_start : float) (synced_audio : list ndarray)
    (rest : list (float * ndarray)) : list ndarray * list (float * ndarray) :=
  match rest with
  | (ts, chunk) :: rest' =>
      if flt ts gap_start
      then add_before_gap gap_start (synced_audio ++ [chunk]) rest'
      else (synced_audio, rest)
  | [] => (synced_audio, [])
  end.

(** "Skip audio during the gap": the second inner [while]. *)
Fixpoint skip_during_gap (gap_end : float) (rest : list (float * ndarray))
  : list (float * ndarray) :=
  match rest with
  | (ts, _) :: rest' =>
      if flt ts gap_end then skip_during_gap gap_end rest' else rest
  | [] => []
  end.

(** The [for gap_start, gap_end in video_gaps] loop. *)
Fixpoint walk_gaps (video_gaps : list (float * float))
    (synced_audio : list ndarray) (rest : list (float * ndarray))
  : list ndarray * list (float * ndarray) :=
  match video_gaps with
  | (gap_start, gap_end) :: gaps' =>
      let '(synced_audio', rest') :=
        add_before_gap gap_start synced_audio rest in
      walk_gaps gaps' synced_audio' (skip_during_gap gap_end rest')
  | [] => (synced_audio, rest)
  end.

(** [synced_audio] as it stands when the final test [if synced_audio:]
    is reached: the walk, then "add remaining audio after the last gap". *)
Definition synced_audio_of (d : t) : list ndarray :=
  let video_gaps := identify_video_gaps 0.1%float d in
  let '(synced_audio, rest) := walk_gaps video_gaps [] d.(audio_data) in
  synced_audio ++ (snd <$> rest).

Definition combined_audio (d : t) : result ndarray :=
  match synced_audio_of d with
  | [] => Ok np_array_empty
  | synced_audio => np_concatenate synced_audio
  end.

(** ** Reading annotations *)

(** A key of [self.annotations] as Python sees it. *)
Inductive dkey : Type :=
| KInt (i : Z)
| KStr (s : string).

(** A value of [self.annotations] as Python sees it. *)
Inductive dval : Type :=
| VEntry (e : entry)
| VMeta (m : metadata).

(** [self.annotations.get(key)], [None] when the key is absent. *)
Definition annotations_get (key : dkey) (d : t) : option dval :=
  match key with
  | KInt i => VEntry <$> d.(annotations) !! i
  | KStr s =>
      if String.eqb s "metadata" then VMeta <$> d.(annotations_metadata)
      else None
  end.

(** [get_annotation]: [None] (after a warning) for an unknown key. *)
Definition get_annotation (frame_idx : dkey) (d : t) : option dval :=
  annotations_get frame_idx d.

(** The largest int key, [None] when there is none. *)
Definition max_int_key (m : gmap Z entry) : option Z :=
  map_fold (λ k _ acc, Some (match acc with
                             | Some a => Z.max a k
                             | None => k
                             end)) None m.

(** [max(self.annotations.keys())]: [ValueError] on an empty dict,
    [TypeError] when int keys and the str key have to be compared. *)
Definition max_key (d : t) : result dkey :=
  match max_int_key d.(annotations), d.(annotations_metadata) with
  | None, None => Raise ValueError
  | Some i, None => Ok (KInt i)
  | None, Some _ => Ok (KStr "metadata")
  | Some _, Some _ => Raise TypeError
  end.

(** [get_last_anno]: [Ok None] is Python's [None].  Subscripting the
    metadata dict with ["anno"] is a [KeyError]; subscripting [None] is a
    [TypeError]. *)
Definition get_last_anno (d : t) : result (option anno_t) :=
  if (get_frames_length d =? 0) || (get_annotations_length d =? 0)
  then Ok None
  else
    key ← max_key d;
    match get_annotation key d with
    | Some (VEntry e) => Ok (Some e.(anno))
    | Some (VMeta _) => Raise KeyError
    | None => Raise TypeError
    end.

(** ** Adding data *)

Definition increment_max_frame (d : t) : t :=
  set_max_frames (d.(max_frames) + 1) d.

(** [add_curr_frame].  The [elif] branch only logs. *)
Definition add_curr_frame (org_frame_idx frame_idx : Z) (frame : image)
    (time_str : string) (timestamp : float) (d : t) : t :=
  let d := if frame_idx =? d.(max_frames) then increment_max_frame d
           else d in
  let d := set_frames (d.(frames) ++ [(timestamp, frame_idx, frame)]) d in
  let new_frame_idx := get_frames_length d - 1 in
  match d.(annotations) !! new_frame_idx with
  | None =>
      set_annotations
        (<[new_frame_idx :=
             Entry frame_idx org_frame_idx time_str AnnoEmpty timestamp]>
           d.(annotations)) d
  | Some e =>
      set_annotations
        (<[new_frame_idx :=
             Entry frame_idx org_frame_idx time_str e.(anno) timestamp]>
           d.(annotations)) d
  end.

Definition add_audio_data (timestamp : float) (audio : ndarray) (d : t)
  : t :=
  set_audio_data (d.(audio_data) ++ [(timestamp, audio)]) d.

(** [self.annotations[frame_idx]["anno"] = v]. *)
Definition set_anno (frame_idx : Z) (v : anno_t) (d : t) : t :=
  set_annotations
    (alter (λ e, Entry e.(idx) e.(org_idx) e.(time_str) v e.(timestamp))
           frame_idx d.(annotations)) d.

(** [last_annotation and last_annotation[0] == "start"]. *)
Definition is_start (a : anno_t) : bool :=
  match a with
  | AnnoCmd c _ => String.eqb c "start"
  | AnnoEmpty => false
  end.

(** [add_annotation].  After the two early returns [frame_idx] is a key of
    [self.annotations], so the [else] of the first
    [if frame_idx in self.annotations] (which would create an entry of
    [None]s) cannot run; both remaining statements are kept, in order. *)
Definition add_annotation (command : string) (annotation : point) (d : t)
  : t :=
  if get_frames_length d =? 0 then d
  else
    let frame_idx := get_frames_length d - 1 in
    match d.(annotations) !! frame_idx with
    | None => d
    | Some e =>
        let last_annotation := e.(anno) in
        let d :=
          if is_start last_annotation
          then set_anno frame_idx (AnnoCmd "start" annotation) d
          else set_anno frame_idx (AnnoCmd command annotation) d in
        match d.(annotations) !! frame_idx with
        | Some e' =>
            if is_start e'.(anno)
            then set_anno frame_idx (AnnoCmd "start" annotation) d
            else set_anno frame_idx (AnnoCmd command annotation) d
        | None => set_anno frame_idx (AnnoCmd command annotation) d
        end
    end.

(** ** Updating and deleting data *)

Definition update_curr_frame (frame : Z) (d : t) : t :=
  set_curr_frame frame d.

Definition update_max_frames (frame : Z) (d : t) : t :=
  set_max_frames frame d.

(** [clean]: the last assignment is to [self.max_frame]. *)
Definition clean (d : t) : t :=
  let d := set_frames [] d in
  let d := set_audio_data [] d in
  let d := set_annotations_metadata None (set_annotations ∅ d) in
  let d := set_curr_frame 0 d in
  set_max_frame (Some 0) d.

End Data.

(* ===================================================================== *)
(** * [src/data.py]: the methods that save data *)
(* ===================================================================== *)

Module Save.
Import Py Data.

(** [s.replace(old, new)] for a nonempty [old]: every occurrence, scanning
    from the left; [skip] counts the characters of a matched occurrence
    still to be passed over. *)
Fixpoint replace_go (old new : string) (skip : nat) (s : string) : string :=
  match s with
  | EmptyString => EmptyString
  | String c s' =>
      match skip with
      | S k => replace_go old new k s'
      | O =>
          if String.prefix old s
          then new +:+ replace_go old new (String.length old - 1) s'
          else String c (replace_go old new 0 s')
      end
  end.

Definition str_replace (old new s : string) : string :=
  replace_go old new 0 s.

(** What a file on disk holds. *)
Inductive file : Type :=
| VideoFile (rasters : list image)
| WavFile (rate : Z) (samples : ndarray)
| MuxedFile
| JsonFile (obj : gmap string dval).

(** What the save sequence asks of its collaborators, in order. *)
Inductive io_event : Type :=
| VideoWriterOpen (path : string)
| WavWrite (path : string)
| RunFfmpeg (video audio output : string)
| OsRemove (path : string)
| JsonOpen (path : string).

Record world : Type := World {
  fs : gmap string file;
  io_log : list io_event
}.

(** How [subprocess.run([ffmpeg, ...])] ends.  Without [check=True] it
    returns normally whatever the exit status of the child; it raises when
    the executable cannot be launched. *)
Inductive ffmpeg_outcome : Type :=
| FfmpegExit (returncode : Z)
| FfmpegNotLaunched.

(** How the collaborators behave during one save. *)
Record env : Type := Env {
  asked_directory : string;      (* answer of [filedialog.askdirectory] *)
  progress_truthy : bool;        (* truth value of the [SaveProgress] window *)
  wav_write_raises : bool;       (* [scipy.io.wavfile.write] fails *)
  ffmpeg : ffmpeg_outcome;
  json_open_raises : bool        (* [open(..., "w")] or [json.dump] fails *)
}.

(** A computation on the world that may raise. *)
Definition io (A : Type) : Type := world → world * result A.

Definition io_bind {A B} (m : io A) (k : A → io B) : io B :=
  λ w, match m w with
       | (w', Ok a) => k a w'
       | (w', Raise e) => (w', Raise e)
       end.

Definition io_ret {A} (a : A) : io A := λ w, (w, Ok a).
Definition io_raise {A} (e : exn) : io A := λ w, (w, Raise e).
Definition io_lift {A} (r : result A) : io A := λ w, (w, r).

Definition emit (ev : io_event) : io unit :=
  λ w, (World w.(fs) (w.(io_log) ++ [ev]), Ok tt).

Definition write_file (path : string) (f : file) : io unit :=
  λ w, (World (<[path := f]> w.(fs)) w.(io_log), Ok tt).

(** [os.path.exists(path)]. *)
Definition os_path_exists (path : string) : io bool :=
  λ w, (w, Ok (bool_decide (is_Some (w.(fs) !! path)))).

(** [os.remove(path)] of an existing file. *)
Definition os_remove (path : string) : io unit :=
  λ w, (World (delete path w.(fs)) (w.(io_log) ++ [OsRemove path]), Ok tt).

(** One turn of the loop of [process_video_data]: [written] is what the
    [VideoWriter] has received so far. *)
Definition write_frame (progress : bool) (last_index max_frames : Z)
    (written : list image) (item : nat * (float * Z * image))
  : result (list image) :=
  let '(idx, (_, index, processed_frame)) := item in
  if index <? max_frames
  then
    let written := written ++ [processed_frame] in
    if progress
    then (if last_index =? 0 then Raise ZeroDivisionError else Ok written)
    else Ok written
  else Ok written.

Fixpoint write_frames (progress : bool) (last_index max_frames : Z)
    (written : list image) (items : list (nat * (float * Z * image)))
  : list image * result unit :=
  match items with
  | [] => (written, Ok tt)
  | item :: items' =>
      match write_frame progress last_index max_frames written item with
      | Ok written' =>
          write_frames progress last_index max_frames written' items'
      | Raise e =>
          (match item with
           | (_, (_, _, f)) => written ++ [f]
           end, Raise e)
      end
  end.

(** [process_video_data].  The division [idx / last_index] is by zero when
    exactly one frame is stored. *)
Definition process_video_data (progress : bool) (d : t) : io unit :=
  match d.(frames) with
  | [] => io_ret tt
  | _ =>
      io_bind (emit (VideoWriterOpen d.(out_file_path))) (λ _,
      let last_index := Z.of_nat (length d.(frames)) - 1 in
      let '(written, r) :=
        write_frames progress last_index d.(max_frames) []
                     (imap (λ i x, (i, x)) d.(frames)) in
      io_bind (write_file d.(out_file_path) (VideoFile written)) (λ _,
      io_lift r))
  end.

(** [process_audio_data]. *)
Definition process_audio_data (ev : env) (d : t) : io unit :=
  if 0 <? Z.of_nat (length d.(audio_data))
  then
    io_bind (io_lift (combined_audio d)) (λ samples,
    io_bind (emit (WavWrite d.(audio_path))) (λ _,
    if ev.(wav_write_raises) then io_raise ValueError
    else write_file d.(audio_path) (WavFile d.(sample_rate) samples)))
  else io_ret tt.

(** The path given to ffmpeg as its output. *)
Definition merged_path (d : t) : string :=
  str_replace ".mp4" "_annotated.mp4" d.(out_file_path).

(** [save_av_and_clean].  ([os.makedirs(..., exist_ok=True)] is taken to
    succeed.)  The result of [subprocess.run] is not looked at. *)
Definition save_av_and_clean (ev : env) (d : t) : io unit :=
  io_bind
    (emit (RunFfmpeg d.(out_file_path) d.(audio_path) (merged_path d)))
    (λ _,
  io_bind
    (match ev.(ffmpeg) with
     | FfmpegNotLaunched => io_raise FileNotFoundError
     | FfmpegExit rc =>
         if rc =? 0 then write_file (merged_path d) MuxedFile
         else io_ret tt
     end) (λ _,
  io_bind (os_path_exists d.(out_file_path)) (λ video_there,
  io_bind (if video_there then os_remove d.(out_file_path) else io_ret tt)
    (λ _,
  io_bind (os_path_exists d.(audio_path)) (λ audio_there,
  if audio_there then os_remove d.(audio_path) else io_ret tt))))).

(** The object that [json.dump(self.annotations, file)] writes and
    [json.load] reads back: an int key [k] becomes the string [str(k)];
    the values are written and read back unchanged. *)
Definition json_of_annotations (d : t) : gmap string dval :=
  let entries : gmap string dval :=
    kmap (pretty : Z → string) (VEntry <$> d.(annotations)) in
  match d.(annotations_metadata) with
  | Some m => <["metadata" := VMeta m]> entries
  | None => entries
  end.

Definition json_path (d : t) : string :=
  str_replace ".mp4" "_annotated.json" d.(out_file_path).

(** [save_annotations]: the [try] contains the failure of the write. *)
Definition save_annotations (ev : env) (d : t) : io t :=
  let d :=
    set_annotations_metadata
      (Some (Metadata d.(name) d.(frame_rate) d.(max_frames)
                      d.(frame_width) d.(frame_height) d.(sample_rate)
                      d.(channels))) d in
  io_bind (emit (JsonOpen (json_path d))) (λ _,
  io_bind (if ev.(json_open_raises) then io_ret tt
           else write_file (json_path d) (JsonFile (json_of_annotations d)))
    (λ _,
  io_ret d)).

Definition set_out_path (v : string) (d : t) : t :=
  Mk d.(in_path) v d.(name) d.(in_file_path) d.(annotated_dir)
     d.(annotated_name) d.(out_file_path) d.(frame_rate) d.(frame_count)
     d.(frame_width) d.(frame_height) d.(frames) d.(audio_data)
     d.(annotations) d.(annotations_metadata) d.(curr_frame)
     d.(max_frames) d.(sample_rate) d.(channels) d.(audio_name)
     d.(audio_path) d.(max_frame).

(** [save_data]: the four stages in order, none of them guarded. *)
Definition save_data (ev : env) (d : t) : io t :=
  let d := if String.eqb d.(out_path) "" then set_out_path ev.(asked_directory) d
           else d in
  io_bind (process_video_data ev.(progress_truthy) d) (λ _,
  io_bind (process_audio_data ev d) (λ _,
  io_bind (save_av_and_clean ev d) (λ _,
  save_annotations ev d))).

End Save.

(* ===================================================================== *)
(** * [src/player.py]: class [VideoPlayer] *)
(* ===================================================================== *)

Module VideoPlayer.
Import Py Data.

(** The decoder behind [cv2.VideoCapture]: the frames of the file, the
    0-based index of the frame to be decoded next ([CAP_PROP_POS_FRAMES]),
    the frame count it reports ([CAP_PROP_FRAME_COUNT]) and the
    presentation time in milliseconds it reports at each position
    ([CAP_PROP_POS_MSEC]). *)
Record capture : Type := Capture {
  video : list image;
  pos_frames : Z;
  frame_count_prop : Z;
  pos_msec_at : Z → float;
  is_opened : bool
}.

(** [cap.read()]: [None] stands for [ret = False]. *)
Definition cap_read (c : capture) : option image * capture :=
  if c.(is_opened) && (0 <=? c.(pos_frames)) then
    match c.(video) !! Z.to_nat c.(pos_frames) with
    | Some f =>
        (Some f, Capture c.(video) (c.(pos_frames) + 1) c.(frame_count_prop)
                         c.(pos_msec_at) c.(is_opened))
    | None => (None, c)
    end
  else (None, c).

(** [cap.set(cv2.CAP_PROP_POS_FRAMES, n)]. *)
Definition cap_set_pos_frames (n : Z) (c : capture) : capture :=
  Capture c.(video) n c.(frame_count_prop) c.(pos_msec_at) c.(is_opened).

Definition cap_get_pos_msec (c : capture) : float :=
  c.(pos_msec_at) c.(pos_frames).

(** What the control window puts on [self.command_queue]. *)
Inductive command : Type :=
| CmdPause
| CmdSeek (frame_number : Z)
| CmdRestart
| CmdOther (s : string).

(** The attributes of a [VideoPlayer] once [start] and [main_loop] have
    set them up.  [pause_frame] and [last_frame_time] do not exist before
    the first successful read.  [command_queue] lists the queue oldest
    first; [pbar_n] is [self.pbar.n]; [seek_var] is the control window's
    [seek_var]; [shown] lists what [cv2.imshow] displayed. *)
Record t : Type := Mk {
  long_annotations : bool;
  annotation_chunk : list point;
  cap : capture;
  frame : image;
  last_frame : image;
  start_point : option point;
  paused : bool;
  drawing : bool;
  curr_frame_idx : Z;
  command_queue : list command;
  data : Data.t;
  pause_frame : option image;
  last_frame_time : option float;
  start_counter : float;
  pbar_n : Z;
  pbar_total : Z;
  seek_var : Z;
  shown : list image
}.

Definition set_annotation_chunk (v : list point) (p : t) : t :=
  Mk p.(long_annotations) v p.(cap) p.(frame) p.(last_frame)
     p.(start_point) p.(paused) p.(drawing) p.(curr_frame_idx)
     p.(command_queue) p.(data) p.(pause_frame) p.(last_frame_time)
     p.(start_counter) p.(pbar_n) p.(pbar_total) p.(seek_var) p.(shown).

Definition set_cap (v : capture) (p : t) : t :=
  Mk p.(long_annotations) p.(annotation_chunk) v p.(frame) p.(last_frame)
     p.(start_point) p.(paused) p.(drawing) p.(curr_frame_idx)
     p.(command_queue) p.(data) p.(pause_frame) p.(last_frame_time)
     p.(start_counter) p.(pbar_n) p.(pbar_total) p.(seek_var) p.(shown).

Definition set_frame (v : image) (p : t) : t :=
  Mk p.(long_annotations) p.(annotation_chunk) p.(cap) v p.(last_frame)
     p.(start_point) p.(paused) p.(drawing) p.(curr_frame_idx)
     p.(command_queue) p.(data) p.(pause_frame) p.(last_frame_time)
     p.(start_counter) p.(pbar_n) p.(pbar_total) p.(seek_var) p.(shown).

Definition set_start_point (v : option point) (p : t) : t :=
  Mk p.(long_annotations) p.(annotation_chunk) p.(cap) p.(frame)
     p.(last_frame) v p.(paused) p.(drawing) p.(curr_frame_idx)
     p.(command_queue) p.(data) p.(pause_frame) p.(last_frame_time)
     p.(start_counter) p.(pbar_n) p.(pbar_total) p.(seek_var) p.(shown).

Definition set_paused (v : bool) (p : t) : t :=
  Mk p.(long_annotations) p.(annotation_chunk) p.(cap) p.(frame)
     p.(last_frame) p.(start_point) v p.(drawing) p.(curr_frame_idx)
     p.(command_queue) p.(data) p.(pause_frame) p.(last_frame_time)
     p.(start_counter) p.(pbar_n) p.(pbar_total) p.(seek_var) p.(shown).

Definition set_drawing (v : bool) (p : t) : t :=
  Mk p.(long_annotations) p.(annotation_chunk) p.(cap) p.(frame)
     p.(last_frame) p.(start_point) p.(paused) v p.(curr_frame_idx)
     p.(command_queue) p.(data) p.(pause_frame) p.(last_frame_time)
     p.(start_counter) p.(pbar_n) p.(pbar_total) p.(seek_var) p.(shown).

Definition set_curr_frame_idx (v : Z) (p : t) : t :=
  Mk p.(long_annotations) p.(annotation_chunk) p.(cap) p.(frame)
     p.(last_frame) p.(start_point) p.(paused) p.(drawing) v
     p.(command_queue) p.(data) p.(pause_frame) p.(last_frame_time)
     p.(start_counter) p.(pbar_n) p.(pbar_total) p.(seek_var) p.(shown).

Definition set_command_queue (v : list command) (p : t) : t :=
  Mk p.(long_annotations) p.(annotation_chunk) p.(cap) p.(frame)
     p.(last_frame) p.(start_point) p.(paused) p.(drawing)
     p.(curr_frame_idx) v p.(data) p.(pause_frame) p.(last_frame_time)
     p.(start_counter) p.(pbar_n) p.(pbar_total) p.(seek_var) p.(shown).

Definition set_data (v : Data.t) (p : t) : t :=
  Mk p.(long_annotations) p.(annotation_chunk) p.(cap) p.(frame)
     p.(last_frame) p.(start_point) p.(paused) p.(drawing)
     p.(curr_frame_idx) p.(command_queue) v p.(pause_frame)
     p.(last_frame_time) p.(start_counter) p.(pbar_n) p.(pbar_total)
     p.(seek_var) p.(shown).

Definition set_pause_frame (v : option image) (p : t) : t :=
  Mk p.(long_annotations) p.(annotation_chunk) p.(cap) p.(frame)
     p.(last_frame) p.(start_point) p.(paused) p.(drawing)
     p.(curr_frame_idx) p.(command_queue) p.(data) v p.(last_frame_time)
     p.(start_counter) p.(pbar_n) p.(pbar_total) p.(seek_var) p.(shown).

Definition set_last_frame_time (v : option float) (p : t) : t :=
  Mk p.(long_annotations) p.(annotation_chunk) p.(cap) p.(frame)
     p.(last_frame) p.(start_point) p.(paused) p.(drawing)
     p.(curr_frame_idx) p.(command_queue) p.(data) p.(pause_frame) v
     p.(start_counter) p.(pbar_n) p.(pbar_total) p.(seek_var) p.(shown).

Definition set_pbar_n (v : Z) (p : t) : t :=
  Mk p.(long_annotations) p.(annotation_chunk) p.(cap) p.(frame)
     p.(last_frame) p.(start_point) p.(paused) p.(drawing)
     p.(curr_frame_idx) p.(command_queue) p.(data) p.(pause_frame)
     p.(last_frame_time) p.(start_counter) v p.(pbar_total) p.(seek_var)
     p.(shown).

Definition set_pbar_total (v : Z) (p : t) : t :=
  Mk p.(long_annotations) p.(annotation_chunk) p.(cap) p.(frame)
     p.(last_frame) p.(start_point) p.(paused) p.(drawing)
     p.(curr_frame_idx) p.(command_queue) p.(data) p.(pause_frame)
     p.(last_frame_time) p.(start_counter) p.(pbar_n) v p.(seek_var)
     p.(shown).

Definition set_seek_var (v : Z) (p : t) : t :=
  Mk p.(long_annotations) p.(annotation_chunk) p.(cap) p.(frame)
     p.(last_frame) p.(start_point) p.(paused) p.(drawing)
     p.(curr_frame_idx) p.(command_queue) p.(data) p.(pause_frame)
     p.(last_frame_time) p.(start_counter) p.(pbar_n) p.(pbar_total) v
     p.(shown).

Definition set_shown (v : list image) (p : t) : t :=
  Mk p.(long_annotations) p.(annotation_chunk) p.(cap) p.(frame)
     p.(last_frame) p.(start_point) p.(paused) p.(drawing)
     p.(curr_frame_idx) p.(command_queue) p.(data) p.(pause_frame)
     p.(last_frame_time) p.(start_counter) p.(pbar_n) p.(pbar_total)
     p.(seek_var) v.

(** ** Pointer events *)

Inductive mouse_event : Type :=
| EVENT_LBUTTONDOWN
| EVENT_MOUSEMOVE
| EVENT_LBUTTONUP
| EVENT_OTHER.

Definition mouse_callback (event : mouse_event) (x y : Z) (p : t) : t :=
  match event, p.(drawing) with
  | EVENT_LBUTTONDOWN, false =>
      let p := set_drawing true p in
      set_data (add_annotation "start" (x, y) p.(data)) p
  | EVENT_MOUSEMOVE, true =>
      set_data (add_annotation "move" (x, y) p.(data)) p
  | EVENT_LBUTTONUP, true =>
      let p := set_drawing false p in
      set_data (add_annotation "end" (x, y) p.(data)) p
  | _, _ => p
  end.

(** [audio_callback], called at wall-clock reading [now]. *)
Definition audio_callback (indata : ndarray) (now : float) (p : t) : t :=
  let timestamp := (now - p.(start_counter))%float in
  set_data (add_audio_data timestamp indata p.(data)) p.

(** ** Drawing the stroke *)

(** [for i in range(len(chunk) - 1): cv2.line(frame, chunk[i], chunk[i+1])]. *)
Definition draw_chunk (chunk : list point) (frame : image) : image :=
  foldl (λ f (i : nat),
           match chunk !! i, chunk !! S i with
           | Some a, Some b => cv2_line f a b
           | _, _ => f
           end)
        frame (seq 0 (length chunk - 1)).

Definition _draw_move_annotations (pt : point) (p : t) : t :=
  if p.(long_annotations) then
    let p := set_annotation_chunk (p.(annotation_chunk) ++ [pt]) p in
    set_frame (draw_chunk p.(annotation_chunk) p.(frame)) p
  else
    let p := match p.(start_point) with
             | Some sp => set_frame (cv2_line p.(frame) sp pt) p
             | None => p
             end in
    set_start_point (Some pt) p.

Definition _finalize_annotation_chunk (pt : point) (p : t) : t :=
  let p :=
    if p.(long_annotations) then
      set_frame (draw_chunk p.(annotation_chunk) p.(frame)) p
    else
      match p.(start_point) with
      | Some sp => set_frame (cv2_line p.(frame) sp pt) p
      | None => p
      end in
  set_start_point None (set_annotation_chunk [] p).

(** The [if]/[elif] chain on [command] inside [draw_annotations]. *)
Definition draw_command (command : string) (pt : point) (p : t) : t :=
  if String.eqb command "start" then
    set_annotation_chunk [pt] (set_start_point (Some pt) p)
  else if String.eqb command "move" then _draw_move_annotations pt p
  else if String.eqb command "end" then _finalize_annotation_chunk pt p
  else p.

(** [draw_annotations].  [max] raises on an empty dict; subtracting an
    int from the str key would be a [TypeError]. *)
Definition draw_annotations (p : t) : result t :=
  annotation ← get_last_anno p.(data);
  largest_key ← max_key p.(data);
  match annotation with
  | Some (AnnoCmd command pt) =>
      match largest_key with
      | KInt k =>
          if Z.abs (k - get_frames_length p.(data)) <=? 5
          then Ok (draw_command command pt p)
          else Ok p
      | KStr _ => Raise TypeError
      end
  | _ => Ok p
  end.

(** [draw_timer]: returns the frame with the label on it, and the label. *)
Definition draw_timer (frame : image) (elapsed_ms : float)
  : result (image * string) :=
  ms ← int_of_float elapsed_ms;
  time_str ← timedelta_str ms;
  let position := (shape1 frame - 75, shape0 frame - 20) in
  Ok (cv2_putText frame time_str position, time_str).

(** ** Commands *)

Definition toggle_pause (p : t) : t := set_paused (negb p.(paused)) p.

Definition seek (frame_number : Z) (p : t) : t :=
  let p := set_cap (cap_set_pos_frames frame_number p.(cap)) p in
  let p := set_data (update_curr_frame frame_number p.(data)) p in
  set_curr_frame_idx frame_number p.

(** [while not q.empty(): _ = q.get()]. *)
Fixpoint drain (q : list command) : list command :=
  match q with
  | [] => []
  | _ :: q' => drain q'
  end.

Definition restart (p : t) : t :=
  let p := set_drawing false (set_paused false p) in
  let p := set_cap (cap_set_pos_frames 0 p.(cap)) p in
  let p := set_data (clean p.(data)) p in
  let p := set_data (update_max_frames p.(cap).(frame_count_prop) p.(data))
                    p in
  let p := set_command_queue (drain p.(command_queue)) p in
  set_pbar_total p.(cap).(frame_count_prop) (set_pbar_n 0 p).

(** [_handle_commands]: at most one command is taken per call. *)
Definition _handle_commands (p : t) : t :=
  match p.(command_queue) with
  | [] => p
  | command :: rest =>
      let p := set_command_queue rest p in
      match command with
      | CmdPause => toggle_pause p
      | CmdSeek n => seek n p
      | CmdRestart => restart p
      | CmdOther _ => p
      end
  end.

(** ** One tick of the capture loop *)

(** A missing attribute, or a [None] where an array is needed. *)
Definition attr {A} (o : option A) : result A :=
  match o with
  | Some a => Ok a
  | None => Raise AttributeError
  end.

(** The [if not self.paused: ... else: ...] block of
    [_process_video_frame]: it sets [self.frame] and yields
    [current_time]. *)
Definition acquire_frame (p : t) : result (t * float) :=
  if negb p.(paused) then
    match cap_read p.(cap) with
    | (None, c) =>
        let p := set_frame p.(last_frame) (set_cap c p) in
        current_time ← attr p.(last_frame_time);
        Ok (p, current_time)
    | (Some f, c) =>
        let p := set_frame f (set_cap c p) in
        let p := set_curr_frame_idx p.(cap).(pos_frames) p in
        let p := set_pause_frame (Some p.(frame)) p in
        let p := set_seek_var p.(curr_frame_idx) p in
        let current_time := cap_get_pos_msec p.(cap) in
        Ok (set_last_frame_time (Some current_time) p, current_time)
    end
  else
    f ← attr p.(pause_frame);
    current_time ← attr p.(last_frame_time);
    Ok (set_frame f p, current_time).

(** [_process_video_frame]; [now] is what [t.perf_counter()] returns when
    the frame is appended.  [_manage_frame_delay] only sleeps. *)
Definition _process_video_frame (now : float) (p : t) : result t :=
  let p := _handle_commands p in
  '(p, current_time) ← acquire_frame p;
  p ← (if p.(drawing) then draw_annotations p else Ok p);
  '(f, time_str) ← draw_timer p.(frame) current_time;
  let p := set_frame f p in
  let p := set_shown (p.(shown) ++ [p.(frame)]) p in
  stored ← attr p.(pause_frame);
  let p :=
    set_data (add_curr_frame p.(curr_frame_idx) p.(pbar_n) stored time_str
                             (now - p.(start_counter))%float p.(data)) p in
  Ok (set_pbar_n (p.(pbar_n) + 1) p).

End VideoPlayer.

(* ===================================================================== *)
(** * [src/player.py]: class [AnnotatedPlayer] *)
(* ===================================================================== *)

Module AnnotatedPlayer.
Import Py Data.

(** The attributes used while playing: [meta] is what [json.load] read
    from the metadata file. *)
Record t : Type := Mk {
  long_annotations : bool;
  annotation_chunk : list point;
  meta : gmap string dval;
  last_point : option point
}.

Definition draw_chunk (chunk : list point) (frame : image) : image :=
  foldl (λ f (i : nat),
           match chunk !! i, chunk !! S i with
           | Some a, Some b => cv2_line f a b
           | _, _ => f
           end)
        frame (seq 0 (length chunk - 1)).

Definition _draw_move_annotations (frame : image) (pt : point) (p : t)
  : t * image :=
  let '(chunk, frame) :=
    if p.(long_annotations) then
      let chunk := p.(annotation_chunk) ++ [pt] in
      (chunk, draw_chunk chunk frame)
    else
      ([pt], match last p.(annotation_chunk) with
             | Some q => cv2_line frame q pt
             | None => frame
             end) in
  (Mk p.(long_annotations) chunk p.(meta) (Some pt), frame).

Definition _finalize_annotation_chunk (frame : image) (pt : point) (p : t)
  : t * image :=
  let frame := match p.(annotation_chunk) with
               | [] => frame
               | chunk => draw_chunk chunk frame
               end in
  (Mk p.(long_annotations) [] p.(meta) None, frame).

Definition _draw_annotations (frame : image) (command : string)
    (pt : point) (p : t) : t * image :=
  if String.eqb command "start" then
    (Mk p.(long_annotations) [pt] p.(meta) p.(last_point), frame)
  else if String.eqb command "move" then _draw_move_annotations frame pt p
  else if String.eqb command "end" then
    _finalize_annotation_chunk frame pt p
  else (p, frame).

Definition _draw_time (frame : image) (time_str : string) : image :=
  cv2_putText frame time_str (shape1 frame - 75, shape0 frame - 20).

(** [_process_frame].  Subscripting the metadata dict with ["anno"] would
    be a [KeyError]. *)
Definition _process_frame (frame : image) (frame_number : Z) (p : t)
  : result (t * image) :=
  match p.(meta) !! pretty frame_number with
  | Some (VEntry frame_data) =>
      let '(p, frame) :=
        match frame_data.(anno) with
        | AnnoCmd command pt => _draw_annotations frame command pt p
        | AnnoEmpty => (p, frame)
        end in
      Ok (p, if String.eqb frame_data.(time_str) "" then frame
             else _draw_time frame frame_data.(time_str))
  | Some (VMeta _) => Raise KeyError
  | None => Ok (p, frame)
  end.

(** The loop of [show] on a freshly opened decoder.  The decoder is only
    read, so its state is the list of the frames not yet read and the
    number of frames read so far, which is what [CAP_PROP_POS_FRAMES] holds
    after each read.  [quit k] tells whether [q] is pressed while the
    [k]-th displayed frame (from 0) is on screen.  The result lists the
    frames passed to [cv2.imshow]. *)
Fixpoint show_loop (quit : nat → bool) (unread : list image) (read : nat)
    (p : t) : result (t * list image) :=
  match unread with
  | [] => Ok (p, [])
  | frame :: unread' =>
      let frame_number := Z.of_nat (S read) in
      '(p, frame) ← _process_frame frame frame_number p;
      if quit read then Ok (p, [frame])
      else
        '(p, rest) ← show_loop quit unread' (S read) p;
        Ok (p, frame :: rest)
  end.

Definition show (quit : nat → bool) (watch_file : list image) (p : t)
  : result (t * list image) :=
  show_loop quit watch_file 0 p.

(** [_validate_files]: both paths must exist. *)
Definition _validate_files (watch_file meta_file : string)
    (w : Save.world) : bool :=
  if negb (bool_decide (is_Some (w.(Save.fs) !! watch_file))) then false
  else if negb (bool_decide (is_Some (w.(Save.fs) !! meta_file))) then false
  else true.

End AnnotatedPlayer.

(* ===================================================================== *)
(** * [src/anno.py]: [watch] *)
(* ===================================================================== *)

Module Anno.

(** [watch]: the timeline file looked for beside the video chosen,
    [meta_file = watch_file.replace("_annotated.mp4", "_annotated.json")]. *)
Definition meta_file (watch_file : string) : string :=
  Save.str_replace "_annotated.mp4" "_annotated.json" watch_file.

End Anno.


(* ===================================================================== *)
(** * Vocabulary of the statements *)
(* ===================================================================== *)

Module Session.
Import Py Data.

(** The keys of [self.annotations] are exactly the logical indices of the
    frames stored. *)
Definition lockstep (d : t) : Prop :=
  d.(annotations_metadata) = None
  ∧ ∀ i : Z, is_Some (d.(annotations) !! i)
             ↔ 0 ≤ i < Z.of_nat (length d.(frames)).

(** One call of [add_curr_frame], with its five arguments. *)
Record append_call : Type := AppendCall {
  ac_org_frame_idx : Z;
  ac_frame_idx : Z;
  ac_frame : image;
  ac_time_str : string;
  ac_timestamp : float
}.

Definition run_call (d : t) (c : append_call) : t :=
  add_curr_frame c.(ac_org_frame_idx) c.(ac_frame_idx) c.(ac_frame)
                 c.(ac_time_str) c.(ac_timestamp) d.

Definition run_calls (d : t) (calls : list append_call) : t :=
  foldl run_call d calls.

(** The capture timestamp of a stored frame. *)
Definition frame_time (fr : float * Z * image) : float := fr.1.1.

(** The annotation entry of the newest frame. *)
Definition last_entry (d : t) : option entry :=
  d.(annotations) !! (get_frames_length d - 1).

(** The commands of a stroke given one after the other to the live
    overlay of the capture loop. *)
Definition live_overlay (stroke : list (string * point))
    (p : VideoPlayer.t) : VideoPlayer.t :=
  foldl (λ p c, VideoPlayer.draw_command c.1 c.2 p) p stroke.

(** The commands of a stroke given one after the other to the playback
    overlay, all drawn on [frame]. *)
Definition playback_overlay (stroke : list (string * point))
    (frame : image) (p : AnnotatedPlayer.t) : AnnotatedPlayer.t * image :=
  foldl (λ pf c, AnnotatedPlayer._draw_annotations pf.2 c.1 c.2 pf.1)
        (p, frame) stroke.

(** The label of the newest annotation entry. *)
Definition last_label (d : t) : option string :=
  time_str <$> last_entry d.

(** The frames a playback displays. *)
Definition displayed (r : result (AnnotatedPlayer.t * list image))
  : result (list image) := snd <$> r.

(** Events of the clean-up and of the annotation write. *)
Definition late_event (ev : Save.io_event) : Prop :=
  match ev with
  | Save.OsRemove _ | Save.JsonOpen _ => True
  | _ => False
  end.

(** The playback state [p] with another timeline loaded. *)
Definition with_meta (m : gmap string dval) (p : AnnotatedPlayer.t)
  : AnnotatedPlayer.t :=
  AnnotatedPlayer.Mk p.(AnnotatedPlayer.long_annotations)
                     p.(AnnotatedPlayer.annotation_chunk) m
                     p.(AnnotatedPlayer.last_point).

(** [json.load] of the file that [save_annotations] wrote at [path]. *)
Definition load_metadata (path : string) (w : Save.world)
  : option (gmap string dval) :=
  match w.(Save.fs) !! path with
  | Some (Save.JsonFile obj) => Some obj
  | _ => None
  end.

(** [str(k)] of an int never starts with the letter m. *)
Definition starts_with_m (s : string) : Prop :=
  match s with
  | String c _ => c = "m"%char
  | _ => False
  end.

(** One call of a method of [Data] that changes the store. *)
Inductive store_op : Type :=
| OpAddCurrFrame (c : append_call)
| OpAddAnnotation (command : string) (annotation : point)
| OpAddAudioData (timestamp : float) (audio : ndarray)
| OpUpdateCurrFrame (frame : Z)
| OpUpdateMaxFrames (frame : Z)
| OpClean.

Definition run_op (d : t) (op : store_op) : t :=
  match op with
  | OpAddCurrFrame c => run_call d c
  | OpAddAnnotation command annotation =>
      add_annotation command annotation d
  | OpAddAudioData timestamp audio => add_audio_data timestamp audio d
  | OpUpdateCurrFrame frame => update_curr_frame frame d
  | OpUpdateMaxFrames frame => update_max_frames frame d
  | OpClean => clean d
  end.

Definition run_ops (d : t) (ops : list store_op) : t :=
  foldl run_op d ops.

(** The frames [process_video_data] hands to the [VideoWriter]: those
    whose decoder index is below [max_frames], in stored order. *)
Definition kept_frames (d : t) : list image :=
  (λ fr : float * Z * image, fr.2)
    <$> filter (λ fr : float * Z * image, fr.1.2 < d.(max_frames))
               d.(frames).

(** The dict [save_annotations] stores under ["metadata"]. *)
Definition metadata_of (d : t) : metadata :=
  Metadata d.(name) d.(frame_rate) d.(max_frames) d.(frame_width)
           d.(frame_height) d.(sample_rate) d.(channels).

(** [self.command_queue.put(command)], as the control window does it. *)
Definition queue_put (command : VideoPlayer.command) (p : VideoPlayer.t)
  : VideoPlayer.t :=
  VideoPlayer.set_command_queue
    (p.(VideoPlayer.command_queue) ++ [command]) p.

(** What can happen to a [VideoPlayer] during a capture session: a tick
    of the capture loop at clock reading [now], a pointer event, an audio
    callback, a command put on the queue. *)
Inductive session_event : Type :=
| Tick (now : float)
| Mouse (event : VideoPlayer.mouse_event) (x y : Z)
| Audio (indata : ndarray) (now : float)
| Put (command : VideoPlayer.command).

Definition run_event (p : VideoPlayer.t) (ev : session_event)
  : result VideoPlayer.t :=
  match ev with
  | Tick now => VideoPlayer._process_video_frame now p
  | Mouse event x y => Ok (VideoPlayer.mouse_callback event x y p)
  | Audio indata now => Ok (VideoPlayer.audio_callback indata now p)
  | Put command => Ok (queue_put command p)
  end.

Fixpoint run_session (p : VideoPlayer.t) (evs : list session_event)
  : result VideoPlayer.t :=
  match evs with
  | [] => Ok p
  | ev :: evs' => p' ← run_event p ev; run_session p' evs'
  end.

(** The state of a capture session between two events: store in lockstep,
    progress counter equal to the number of stored frames and not above
    [max_frames], every stored decoder index below [max_frames], and the
    cached frame and every stored frame taken unchanged from the
    decoder. *)
Definition session_inv (p : VideoPlayer.t) : Prop :=
  lockstep p.(VideoPlayer.data)
  ∧ p.(VideoPlayer.pbar_n) = get_frames_length p.(VideoPlayer.data)
  ∧ p.(VideoPlayer.pbar_n) ≤ p.(VideoPlayer.data).(max_frames)
  ∧ 0 ≤ p.(VideoPlayer.cap).(VideoPlayer.frame_count_prop)
  ∧ Forall (λ fr : float * Z * image,
              fr.1.2 < p.(VideoPlayer.data).(max_frames)
              ∧ fr.2 ∈ p.(VideoPlayer.cap).(VideoPlayer.video))
           p.(VideoPlayer.data).(frames)
  ∧ ∀ f, p.(VideoPlayer.pause_frame) = Some f →
         f ∈ p.(VideoPlayer.cap).(VideoPlayer.video).

(** The line segments joining the consecutive points of a path. *)
Definition segments (chunk : list point) : list draw_op :=
  (λ ab : point * point, Line ab.1 ab.2) <$> zip chunk (drop 1 chunk).

(** The playback overlay on a run of frames that all show [frame]: each
    command of [stroke] is drawn on its own copy; the result lists the
    copies as displayed. *)
Fixpoint replay (stroke : list (string * point)) (frame : image)
    (p : AnnotatedPlayer.t) : list image :=
  match stroke with
  | [] => []
  | (command, pt) :: stroke' =>
      let '(p', drawn_frame) :=
        AnnotatedPlayer._draw_annotations frame command pt p in
      drawn_frame :: replay stroke' frame p'
  end.

(** [frame] with the operations [ops] drawn on top. *)
Definition overlaid (frame : image) (ops : list draw_op) : image :=
  Image frame.(pixels) (frame.(drawn) ++ ops).

(** Whether the character [.] occurs in [s]. *)
Fixpoint has_dot (s : string) : bool :=
  match s with
  | EmptyString => false
  | String c s' => Ascii.eqb c "."%char || has_dot s'
  end.

(** A stroke that starts at [P0] and moves through [ps]. *)
Definition start_and_moves (P0 : point) (ps : list point)
  : list (string * point) :=
  ("start"%string, P0) :: ((λ pt, ("move"%string, pt)) <$> ps).

End Session.

(* ===================================================================== *)
(** * Concrete inputs *)
(* ===================================================================== *)

Module Examples.
Import Py Data.

Definition blank : image := Image [] [].

(** A store as [Data.__init__] leaves it for [clip.mp4], 100 frames. *)
Definition fresh_store : Data.t :=
  Data.Mk "in" "out" "clip.mp4" "in/clip.mp4" "out" "clip_annotated.mp4"
          "out/clip_annotated.mp4" 30 100 640 480 [] [] ∅ None 0 100
          44100 2 "clip.wav" "out/clip.wav" None.

(** A decoder on a one-frame file that reports presentation time 0. *)
Definition one_frame_capture : VideoPlayer.capture :=
  VideoPlayer.Capture [blank] 0 1 (λ _, 0%float) true.

(** A player about to run its first tick, epoch at clock reading 0. *)
Definition fresh_player : VideoPlayer.t :=
  VideoPlayer.Mk false [] one_frame_capture blank blank None false false 0
                 [] fresh_store None None 0%float 0 1 0 [].

(** Two appends with the same decoder index 7. *)
Definition repeated_calls : list Session.append_call :=
  [Session.AppendCall 8 7 blank "0:00:00" 0.25%float;
   Session.AppendCall 8 7 blank "0:00:00" 0.5%float].

(** The store of the gap scenario, with six one-row chunks. *)
Definition gap_store : Data.t :=
  set_audio_data
    [(0.0%float, [[10]]); (0.04%float, [[11]]); (0.1%float, [[12]]);
     (0.2%float, [[13]]); (0.32%float, [[14]]); (0.4%float, [[15]])]
    (set_frames
       [(0.0%float, 0, blank); (0.05%float, 1, blank);
        (0.3%float, 2, blank); (0.35%float, 3, blank)] fresh_store).

(** One frame captured, no stroke on it yet. *)
Definition one_frame_store : Data.t :=
  add_curr_frame 1 0 blank "0:00:00" 0.5%float fresh_store.

(** Two frames and one audio chunk captured. *)
Definition captured_store : Data.t :=
  add_audio_data 0.1%float [[7]]
    (add_curr_frame 2 1 blank "0:00:00" 0.6%float one_frame_store).

(** A save during which ffmpeg runs and fails with exit status 1. *)
Definition mux_fails : Save.env :=
  Save.Env "" true false (Save.FfmpegExit 1) false.

(** A save during which ffmpeg cannot be launched. *)
Definition mux_missing : Save.env :=
  Save.Env "" true false Save.FfmpegNotLaunched false.

Definition empty_world : Save.world := Save.World ∅ [].

(** Two frames captured one second apart, a stroke started on the first. *)
Definition stroke_store : Data.t :=
  add_curr_frame 2 1 blank "0:00:01" 1.5%float
    (add_annotation "start" (1, 2) one_frame_store).

(** A save during which every collaborator succeeds. *)
Definition all_fine : Save.env :=
  Save.Env "" true false (Save.FfmpegExit 0) false.

(** Two frames 50 ms apart and two audio chunks: no gap. *)
Definition steady_store : Data.t :=
  set_audio_data [(0.0%float, [[1]; [2]]); (0.02%float, [[3]])]
    (set_frames [(0.0%float, 0, blank); (0.05%float, 1, blank)]
                fresh_store).

(** A capture with a restart in the middle and a stroke on the last frame. *)
Definition mixed_ops : list Session.store_op :=
  [Session.OpAddCurrFrame (Session.AppendCall 1 0 blank "0:00:00" 0.1%float);
   Session.OpAddAnnotation "start" (5, 5);
   Session.OpClean;
   Session.OpUpdateMaxFrames 100;
   Session.OpAddAudioData 0.2%float [[9]];
   Session.OpAddCurrFrame (Session.AppendCall 1 0 blank "0:00:00" 0.3%float);
   Session.OpAddCurrFrame (Session.AppendCall 2 1 blank "0:00:00" 0.4%float);
   Session.OpAddAnnotation "move" (6, 7)].

(** A session with neither frames nor audio, saved while ffmpeg fails. *)
Definition nothing_fine : Save.env :=
  Save.Env "" true false (Save.FfmpegExit 1) false.

(** A short session on the one-frame file: two ticks, a stroke begun, a
    restart requested and served, an audio callback in between. *)
Definition short_session : list Session.session_event :=
  [Session.Tick 0.1%float;
   Session.Mouse VideoPlayer.EVENT_LBUTTONDOWN 3 4;
   Session.Audio [[1]; [2]] 0.15%float;
   Session.Tick 0.2%float;
   Session.Put VideoPlayer.CmdRestart;
   Session.Mouse VideoPlayer.EVENT_LBUTTONUP 5 6;
   Session.Tick 0.3%float].

(** The player after its first tick, then paused. *)
Definition paused_player : VideoPlayer.t :=
  VideoPlayer.Mk false [] (VideoPlayer.Capture [blank] 1 1 (λ _, 0%float) true)
                 blank blank None true false 1 [] one_frame_store
                 (Some blank) (Some 0%float) 0%float 1 1 1 [].

(** A decoder on a three-frame file, 40 ms per frame. *)
Definition three_frame_capture : VideoPlayer.capture :=
  VideoPlayer.Capture
    [Image [[0]] []; Image [[1]] []; Image [[2]] []] 0 3
    (λ pos, if pos =? 1 then 0%float
            else if pos =? 2 then 40%float else 80%float) true.

(** A player on the three-frame file with a seek to frame 2 queued. *)
Definition seeking_player : VideoPlayer.t :=
  VideoPlayer.Mk false [] three_frame_capture blank (Image [[2]] []) None
                 false false 0 [VideoPlayer.CmdSeek 2] fresh_store None None
                 0%float 0 3 0 [].

(** A player that has captured one frame and is asked to restart. *)
Definition restarting_player : VideoPlayer.t :=
  VideoPlayer.Mk false [] (VideoPlayer.Capture [blank] 1 1 (λ _, 0%float) true)
                 blank blank None true true 1
                 [VideoPlayer.CmdRestart; VideoPlayer.CmdPause]
                 one_frame_store (Some blank) (Some 0%float) 0%float 1 1 1
                 [].

End Examples.

(* ===================================================================== *)
(** * Properties of the timeline store and of the gap reconciler *)
(* ===================================================================== *)

(** Unfolds the sequencing of [result] computations. *)
Ltac py_run :=
  unfold mbind, result_bind, fmap, result_fmap, Py.bind, VideoPlayer.attr
    in *; cbn in *.

Section TimelineStore.
Import Py Data Session.

(** The setters touch one field each. *)
Lemma add_curr_frame_frames o i f s ts d :
  (add_curr_frame o i f s ts d).(frames) = d.(frames) ++ [(ts, i, f)].
Proof.
  unfold add_curr_frame.
  destruct (i =? _); cbn; by destruct (_ !! _).
Qed.

Lemma add_curr_frame_metadata o i f s ts d :
  (add_curr_frame o i f s ts d).(annotations_metadata)
  = d.(annotations_metadata).
Proof.
  unfold add_curr_frame.
  destruct (i =? _); cbn; by destruct (_ !! _).
Qed.

Lemma add_curr_frame_annotations o i f s ts d :
  (add_curr_frame o i f s ts d).(annotations)
  = <[ get_frames_length d :=
         Entry i o s
           (default AnnoEmpty
              (anno <$> d.(annotations) !! get_frames_length d)) ts ]>
      d.(annotations).
Proof.
  unfold add_curr_frame, get_frames_length.
  assert (∀ l : list (float * Z * image),
            Z.of_nat (length (l ++ [(ts, i, f)])) - 1 = Z.of_nat (length l))
    as Hlen by (intros; rewrite length_app; cbn; lia).
  destruct (i =? _); cbn; rewrite Hlen; by destruct (_ !! _).
Qed.

Lemma lockstep_fresh d :
  d.(frames) = [] → d.(annotations) = ∅ → d.(annotations_metadata) = None →
  lockstep d.
Proof.
  intros Hf Ha Hm. split; [done|]. intros i. rewrite Hf, Ha, lookup_empty.
  cbn. split; [by intros [? ?] | lia].
Qed.

Lemma lockstep_add_curr_frame o i f s ts d :
  lockstep d → lockstep (add_curr_frame o i f s ts d).
Proof.
  intros [Hm Hdom]. split.
  - by rewrite add_curr_frame_metadata.
  - intros j. rewrite add_curr_frame_annotations, add_curr_frame_frames.
    rewrite length_app. cbn. unfold get_frames_length.
    destruct (decide (j = Z.of_nat (length d.(frames)))) as [->|Hne].
    + rewrite lookup_insert_eq. split; [lia | eauto].
    + rewrite lookup_insert_ne by done. rewrite Hdom. lia.
Qed.

Lemma run_calls_lockstep d calls :
  lockstep d → lockstep (run_calls d calls).
Proof.
  revert d. induction calls as [|c calls IH]; intros d Hd; [done|].
  cbn. apply IH. by apply lockstep_add_curr_frame.
Qed.

Lemma run_calls_length d calls :
  length (run_calls d calls).(frames)
  = (length d.(frames) + length calls)%nat.
Proof.
  revert d. induction calls as [|c calls IH]; intros d; cbn; [lia|].
  rewrite IH. unfold run_call. rewrite add_curr_frame_frames, length_app.
  cbn. lia.
Qed.

(** C2 (monotonic indexing and lockstep).  From a fresh store, after the
    first [k] of any sequence of [add_curr_frame] calls there are [k]
    frames and the keys of [self.annotations] are exactly [0..k-1]; the
    next call puts its frame at position [k], writes the entry of key [k]
    from its own arguments, and leaves every other key as it was. *)
Theorem add_curr_frame_monotonic_lockstep
    (d0 : t) (calls : list append_call) (k : nat) :
  d0.(frames) = [] →
  d0.(annotations) = ∅ →
  d0.(annotations_metadata) = None →
  (k ≤ length calls)%nat →
  let d := run_calls d0 (take k calls) in
  length d.(frames) = k
  ∧ d.(annotations_metadata) = None
  ∧ (∀ i : Z, is_Some (d.(annotations) !! i) ↔ 0 ≤ i < Z.of_nat k)
  ∧ ∀ c, calls !! k = Some c →
      let d' := run_call d c in
      run_calls d0 (take (S k) calls) = d'
      ∧ d'.(frames) !! k
        = Some (c.(ac_timestamp), c.(ac_frame_idx), c.(ac_frame))
      ∧ d.(annotations) !! Z.of_nat k = None
      ∧ d'.(annotations) !! Z.of_nat k
        = Some (Entry c.(ac_frame_idx) c.(ac_org_frame_idx)
                      c.(ac_time_str) AnnoEmpty c.(ac_timestamp))
      ∧ ∀ j : Z, j ≠ Z.of_nat k →
          d'.(annotations) !! j = d.(annotations) !! j.
Proof.
  intros Hf Ha Hm Hk d.
  assert (length d.(frames) = k) as Hlen.
  { unfold d. rewrite run_calls_length, Hf, length_take. cbn. lia. }
  assert (lockstep d) as [Hmd Hdom].
  { apply run_calls_lockstep. by apply lockstep_fresh. }
  rewrite Hlen in Hdom.
  assert (d.(annotations) !! Z.of_nat k = None) as Hnone.
  { apply eq_None_not_Some. rewrite Hdom. lia. }
  split; [done|]. split; [done|]. split; [done|].
  intros c Hc d'. unfold d', run_call.
  rewrite add_curr_frame_frames, add_curr_frame_annotations.
  unfold get_frames_length. rewrite Hlen, Hnone. cbn.
  split_and!.
  - unfold d. erewrite take_S_r by done.
    unfold run_calls. by rewrite foldl_app.
  - rewrite lookup_app_r by lia. by rewrite Hlen, Nat.sub_diag.
  - done.
  - by rewrite lookup_insert_eq.
  - intros j Hj. by rewrite lookup_insert_ne.
Qed.

Lemma add_curr_frame_monotonic_lockstep_witness :
  let d := run_calls Examples.fresh_store (take 1 Examples.repeated_calls) in
  length d.(frames) = 1%nat
  ∧ d.(annotations_metadata) = None
  ∧ (∀ i : Z, is_Some (d.(annotations) !! i) ↔ 0 ≤ i < Z.of_nat 1)
  ∧ ∀ c, Examples.repeated_calls !! 1%nat = Some c →
      let d' := run_call d c in
      run_calls Examples.fresh_store (take 2 Examples.repeated_calls) = d'
      ∧ d'.(frames) !! 1%nat
        = Some (c.(ac_timestamp), c.(ac_frame_idx), c.(ac_frame))
      ∧ d.(annotations) !! Z.of_nat 1 = None
      ∧ d'.(annotations) !! Z.of_nat 1
        = Some (Entry c.(ac_frame_idx) c.(ac_org_frame_idx)
                      c.(ac_time_str) AnnoEmpty c.(ac_timestamp))
      ∧ ∀ j : Z, j ≠ Z.of_nat 1 →
          d'.(annotations) !! j = d.(annotations) !! j.
Proof.
  apply (add_curr_frame_monotonic_lockstep
           Examples.fresh_store Examples.repeated_calls 1);
    [reflexivity | reflexivity | reflexivity | cbn; lia].
Defined.

(** ** Gap reconciliation *)

(** C1 (gap reconciliation on the concrete scenario).  Whatever the
    rasters, decoder indices and samples are, a store whose frames carry
    the timestamps 0.0, 0.05, 0.3, 0.35 and whose audio chunks carry
    0.0, 0.04, 0.1, 0.2, 0.32, 0.4 has the single gap (0.05, 0.3) at
    threshold 0.1, and [combined_audio] returns the concatenation of the
    first, second, fifth and sixth chunk, in that order. *)
Theorem gap_scenario (d : t) :
  frame_time <$> d.(frames) = [0.0; 0.05; 0.3; 0.35]%float →
  fst <$> d.(audio_data) = [0.0; 0.04; 0.1; 0.2; 0.32; 0.4]%float →
  identify_video_gaps 0.1%float d = [(0.05, 0.3)%float]
  ∧ ∃ c0 c1 c2 c3 c4 c5 : ndarray,
      snd <$> d.(audio_data) = [c0; c1; c2; c3; c4; c5]
      ∧ combined_audio d = Ok (c0 ++ c1 ++ c4 ++ c5).
Proof.
  intros Hf Ha.
  destruct d as [? ? ? ? ? ? ? ? ? ? ? fs au ? ? ? ? ? ? ? ? ?].
  cbn in Hf, Ha.
  do 5 (destruct fs as [|[[? ?] ?] fs]; try discriminate Hf).
  do 7 (destruct au as [|[? ?] au]; try discriminate Ha).
  unfold frame_time in Hf. cbn in Hf, Ha. simplify_eq.
  split; [by vm_compute|].
  eexists _, _, _, _, _, _. split; [reflexivity|].
  unfold combined_audio, synced_audio_of. cbn.
  by rewrite app_nil_r.
Qed.

Lemma gap_scenario_witness :
  identify_video_gaps 0.1%float Examples.gap_store = [(0.05, 0.3)%float]
  ∧ ∃ c0 c1 c2 c3 c4 c5 : ndarray,
      snd <$> Examples.gap_store.(audio_data) = [c0; c1; c2; c3; c4; c5]
      ∧ combined_audio Examples.gap_store = Ok (c0 ++ c1 ++ c4 ++ c5).
Proof.
  apply (gap_scenario Examples.gap_store); reflexivity.
Defined.

(** ** The stroke command stored per frame *)

Lemma set_anno_annotations i v d :
  (set_anno i v d).(annotations)
  = alter (λ e, Entry e.(idx) e.(org_idx) e.(time_str) v e.(timestamp))
          i d.(annotations).
Proof. done. Qed.

(** What [add_annotation] does when the newest frame has an entry: the
    command written is ["start"] if the entry held a start, the command
    passed otherwise, always with the new point. *)
Lemma add_annotation_eq command p d e :
  d.(frames) ≠ [] →
  last_entry d = Some e →
  add_annotation command p d
  = set_annotations
      (<[ get_frames_length d - 1 :=
            Entry e.(idx) e.(org_idx) e.(time_str)
              (AnnoCmd (if is_start e.(anno) then "start" else command) p)
              e.(timestamp) ]> d.(annotations)) d.
Proof.
  intros Hne He. unfold last_entry in He. unfold add_annotation.
  assert ((get_frames_length d =? 0) = false) as ->.
  { apply Z.eqb_neq. unfold get_frames_length.
    destruct d.(frames); [done | cbn; lia]. }
  rewrite He.
  set (i := get_frames_length d - 1) in *.
  assert (∀ v w, set_anno i v (set_anno i w d)
                 = set_annotations
                     (<[ i := Entry e.(idx) e.(org_idx) e.(time_str) v
                                    e.(timestamp) ]> d.(annotations)) d)
    as Htwice.
  { intros v w. unfold set_anno, set_annotations.
    destruct d; cbn in *. f_equal.
    apply map_eq. intros j. destruct (decide (i = j)) as [<-|].
    - rewrite lookup_insert_eq, !lookup_alter_eq, He. done.
    - rewrite lookup_insert_ne by done.
      rewrite lookup_alter_ne by done.
      rewrite lookup_alter_ne by done. done. }
  destruct (is_start e.(anno)) eqn:Hs.
  - replace (get_frames_length (set_anno i (AnnoCmd "start" p) d))
      with (get_frames_length d) by done. fold i.
    rewrite set_anno_annotations, lookup_alter_eq, He. cbn.
    apply Htwice.
  - replace (get_frames_length (set_anno i (AnnoCmd command p) d))
      with (get_frames_length d) by done. fold i.
    rewrite set_anno_annotations, lookup_alter_eq, He. cbn.
    destruct (String.eqb command "start") eqn:Hc.
    + apply String.eqb_eq in Hc. subst command. apply Htwice.
    + apply Htwice.
Qed.

(** C3, as amended (stroke command per frame).  On a store with at least
    one frame whose newest frame has an entry, [add_annotation] rewrites
    only the ["anno"] field of that entry: a ["start"] always stores
    [["start", point]] with the new point; a ["move"] or ["end"] arriving
    when the entry holds no start is not ignored, it stores
    [[command, point]]; any command arriving when the entry holds a start
    stores [["start", point]].  Every other key and every other attribute
    of the store is unchanged. *)
Theorem add_annotation_last_write_wins
    (command : string) (p : point) (d : t) (e : entry) :
  d.(frames) ≠ [] →
  last_entry d = Some e →
  let d' := add_annotation command p d in
  let written := if is_start e.(anno) then "start"%string else command in
  last_entry d'
  = Some (Entry e.(idx) e.(org_idx) e.(time_str) (AnnoCmd written p)
                e.(timestamp))
  ∧ (command = "start"%string → written = "start"%string)
  ∧ (is_start e.(anno) = false → written = command)
  ∧ (∀ j : Z, j ≠ get_frames_length d - 1 →
       d'.(annotations) !! j = d.(annotations) !! j)
  ∧ set_annotations d.(annotations) d' = d.
Proof.
  intros Hne He d' written. unfold d'.
  rewrite (add_annotation_eq _ _ _ e) by done.
  split_and!.
  - unfold last_entry. cbn.
    replace (get_frames_length (set_annotations _ d))
      with (get_frames_length d) by done.
    by rewrite lookup_insert_eq.
  - intros ->. unfold written. by destruct (is_start _).
  - intros Hs. unfold written. by rewrite Hs.
  - intros j Hj. cbn. by rewrite lookup_insert_ne.
  - by destruct d.
Qed.

Lemma add_annotation_last_write_wins_witness :
  last_entry (add_annotation "move" (3, 4) Examples.one_frame_store)
  = Some (Entry 0 1 "0:00:00" (AnnoCmd "move" (3, 4)) 0.5%float).
Proof.
  apply (add_annotation_last_write_wins
           "move" (3, 4) Examples.one_frame_store
           (Entry 0 1 "0:00:00" AnnoEmpty 0.5%float));
    [discriminate | reflexivity].
Defined.

(** C3 as stated fails: on a store with one frame and no stroke recorded
    for it, a ["move"] and an ["end"] are both written into the entry,
    which is then neither unchanged nor empty. *)
Lemma move_without_start_is_recorded :
  let d := Examples.one_frame_store in
  d.(frames) ≠ []
  ∧ anno <$> last_entry d = Some AnnoEmpty
  ∧ anno <$> last_entry (add_annotation "move" (3, 4) d)
    = Some (AnnoCmd "move" (3, 4))
  ∧ anno <$> last_entry (add_annotation "end" (5, 6) d)
    = Some (AnnoCmd "end" (5, 6))
  ∧ last_entry (add_annotation "move" (3, 4) d) ≠ last_entry d.
Proof. by vm_compute. Qed.

(** ** Empty-session guards *)

(** C9 (empty-session guards).  On a store with no frame, or with an
    empty [self.annotations], [get_last_anno] returns [None] and does not
    raise; [combined_audio] never raises, and returns the empty array
    when no audio chunk survives the walk. *)
Theorem empty_session_guards (d : t) :
  (d.(frames) = []
   ∨ (d.(annotations) = ∅ ∧ d.(annotations_metadata) = None)
   → get_last_anno d = Ok None)
  ∧ returns (combined_audio d)
  ∧ (synced_audio_of d = [] → combined_audio d = Ok np_array_empty).
Proof.
  split_and!.
  - intros [Hf | [Ha Hm]]; unfold get_last_anno.
    + unfold get_frames_length. by rewrite Hf.
    + unfold get_annotations_length. rewrite Ha, Hm, map_size_empty.
      cbn. by rewrite orb_true_r.
  - unfold returns, combined_audio.
    destruct (synced_audio_of d); cbn; eauto.
  - unfold combined_audio. by intros ->.
Qed.

Lemma empty_session_guards_witness :
  get_last_anno Examples.fresh_store = Ok None
  ∧ combined_audio Examples.fresh_store = Ok np_array_empty.
Proof.
  destruct (empty_session_guards Examples.fresh_store) as (Hlast & _ & Haudio).
  split; [apply Hlast; left; reflexivity | apply Haudio; reflexivity].
Defined.

(** ** [clean] *)

(** C10 (frame of [clean]).  [clean] empties [frames], [audio_data] and
    [annotations], sets [curr_frame] to 0 and creates [max_frame] (no
    final s) with value 0; [max_frames] and every other attribute keep
    their values. *)
Theorem clean_frame (d : t) :
  let d' := clean d in
  d'.(frames) = []
  ∧ d'.(audio_data) = []
  ∧ d'.(annotations) = ∅
  ∧ d'.(annotations_metadata) = None
  ∧ d'.(curr_frame) = 0
  ∧ d'.(max_frame) = Some 0
  ∧ d'.(max_frames) = d.(max_frames)
  ∧ d'.(in_path) = d.(in_path)
  ∧ d'.(out_path) = d.(out_path)
  ∧ d'.(name) = d.(name)
  ∧ d'.(in_file_path) = d.(in_file_path)
  ∧ d'.(annotated_dir) = d.(annotated_dir)
  ∧ d'.(annotated_name) = d.(annotated_name)
  ∧ d'.(out_file_path) = d.(out_file_path)
  ∧ d'.(audio_name) = d.(audio_name)
  ∧ d'.(audio_path) = d.(audio_path)
  ∧ d'.(frame_rate) = d.(frame_rate)
  ∧ d'.(frame_count) = d.(frame_count)
  ∧ d'.(frame_width) = d.(frame_width)
  ∧ d'.(frame_height) = d.(frame_height)
  ∧ d'.(sample_rate) = d.(sample_rate)
  ∧ d'.(channels) = d.(channels).
Proof. by split_and!. Qed.

End TimelineStore.

(* ===================================================================== *)
(** * Properties of the capture loop *)
(* ===================================================================== *)

Section CaptureLoop.
Import Py Data Session VideoPlayer.

Lemma drain_nil q : drain q = [].
Proof. induction q as [|c q IH]; [done | exact IH]. Qed.

(** C5 (restart clears state).  After [restart] the store holds no frame,
    no audio chunk and no annotation, its current-frame pointer is 0, its
    [max_frames] is the frame count the decoder reports, and the command
    queue is empty, so that the next [_handle_commands] applies nothing;
    when [restart] is the command taken from the queue, everything that
    was queued behind it is dropped with it. *)
Theorem restart_clears_state (p : t) (queued : list command) :
  let p' := restart p in
  p'.(data).(frames) = []
  ∧ p'.(data).(audio_data) = []
  ∧ p'.(data).(annotations) = ∅
  ∧ p'.(data).(annotations_metadata) = None
  ∧ p'.(data).(curr_frame) = 0
  ∧ p'.(data).(max_frames) = p.(cap).(frame_count_prop)
  ∧ p'.(command_queue) = []
  ∧ _handle_commands p' = p'
  ∧ (_handle_commands
       (set_command_queue (CmdRestart :: queued) p)).(command_queue) = [].
Proof.
  cbn. rewrite !drain_nil. split_and!; try done.
  unfold _handle_commands. cbn. by rewrite drain_nil.
Qed.

(** C6 (a stroke of two points under both policies).  In the capture
    loop, after a ["start"] at [P0] an ["end"] at [P1] draws the segment
    from [P0] to [P1] under the short policy and draws nothing under the
    long one; in the playback it draws nothing under either policy. *)
Theorem two_point_stroke_rendering
    (P0 P1 : point) (p : t) (q : AnnotatedPlayer.t) (f : image) :
  (live_overlay [("start", P0); ("end", P1)] p).(frame).(drawn)
  = p.(frame).(drawn)
    ++ (if p.(long_annotations) then [] else [Line P0 P1])
  ∧ (playback_overlay [("start", P0); ("end", P1)] f q).2 = f.
Proof.
  split.
  - unfold live_overlay, draw_command, _finalize_annotation_chunk. cbn.
    destruct p.(long_annotations) eqn:Hl; cbn; rewrite ?Hl; cbn.
    + by rewrite app_nil_r.
    + done.
  - unfold playback_overlay. cbn. done.
Qed.

(** Moves and button releases reach the store only while a stroke is
    open. *)
Lemma mouse_callback_needs_open_stroke (x y : Z) (p : t) :
  p.(drawing) = false →
  mouse_callback EVENT_MOUSEMOVE x y p = p
  ∧ mouse_callback EVENT_LBUTTONUP x y p = p.
Proof. intros Hd. unfold mouse_callback. by rewrite Hd. Qed.

Lemma last_entry_add_curr_frame o i f s ts d :
  last_entry (add_curr_frame o i f s ts d)
  = Some (Entry i o s
            (default AnnoEmpty
               (anno <$> d.(annotations) !! get_frames_length d)) ts).
Proof.
  unfold last_entry. rewrite add_curr_frame_annotations.
  unfold get_frames_length at 1. rewrite add_curr_frame_frames, length_app.
  cbn. replace (Z.of_nat (length d.(frames) + 1) - 1)
    with (get_frames_length d) by (unfold get_frames_length; lia).
  by rewrite lookup_insert_eq.
Qed.

(** The overlay leaves the store, the cached frame and the counters alone. *)
Lemma draw_annotations_frame_only p q :
  draw_annotations p = Ok q →
  q.(data) = p.(data) ∧ q.(pause_frame) = p.(pause_frame)
  ∧ q.(curr_frame_idx) = p.(curr_frame_idx) ∧ q.(pbar_n) = p.(pbar_n)
  ∧ q.(start_counter) = p.(start_counter) ∧ q.(shown) = p.(shown).
Proof.
  unfold draw_annotations. intros H.
  destruct (get_last_anno p.(data)) as [a|] eqn:Ha; [|done].
  destruct (max_key p.(data)) as [k|] eqn:Hk; [|done].
  cbn in H. destruct a as [[|c pt]|]; try by simplify_eq.
  destruct k as [k|]; [|done].
  destruct (Z.abs _ <=? 5); [|by simplify_eq].
  simplify_eq. unfold draw_command, _draw_move_annotations,
    _finalize_annotation_chunk.
  repeat (case_match; cbn); done.
Qed.

Lemma _handle_commands_start_counter p :
  (_handle_commands p).(start_counter) = p.(start_counter).
Proof.
  unfold _handle_commands. destruct p.(command_queue) as [|[]]; done.
Qed.

Lemma acquire_frame_inv p q ct :
  acquire_frame p = Ok (q, ct) →
  q.(start_counter) = p.(start_counter)
  ∧ (ct = cap_get_pos_msec q.(cap) ∨ p.(last_frame_time) = Some ct).
Proof.
  unfold acquire_frame. intros H.
  destruct (negb p.(paused)).
  - destruct (cap_read p.(cap)) as [[f|] c].
    + simplify_eq. cbn. by split; [|left].
    + py_run. destruct p.(last_frame_time); simplify_eq.
      by split; [|right].
  - py_run. destruct p.(pause_frame); [|done].
    destruct p.(last_frame_time); simplify_eq. by split; [|right].
Qed.

(** C7, as amended (source of the elapsed-time label).  On every tick that
    completes, the label drawn on the frame and stored with it is the
    rendering of [current_time], which is the presentation time the
    decoder reports for the frame just read or, when paused or at the end
    of the stream, the cached value of an earlier read; the wall-clock
    reading [now] only enters the entry's [timestamp], and the same tick
    at any other reading gives the same label. *)
Theorem timer_label_is_decoder_time (now : float) (p p' : t) :
  _process_video_frame now p = Ok p' →
  ∃ q current_time ms label e,
    acquire_frame (_handle_commands p) = Ok (q, current_time)
    ∧ (current_time = cap_get_pos_msec q.(cap)
       ∨ (_handle_commands p).(last_frame_time) = Some current_time)
    ∧ int_of_float current_time = Ok ms
    ∧ timedelta_str ms = Ok label
    ∧ last_entry p'.(data) = Some e
    ∧ e.(time_str) = label
    ∧ e.(timestamp) = (now - p.(start_counter))%float
    ∧ (∃ shown_frame, last p'.(shown) = Some shown_frame
         ∧ ∃ org, last shown_frame.(drawn) = Some (Text label org))
    ∧ ∀ now', ∃ p'', _process_video_frame now' p = Ok p''
                     ∧ last_label p''.(data) = Some label.
Proof.
  unfold _process_video_frame. intros H.
  destruct (acquire_frame (_handle_commands p)) as [[q ct]|] eqn:Hacq;
    [|done].
  cbn in H.
  destruct (if q.(drawing) then draw_annotations q else Ok q)
    as [q1|] eqn:Hdraw; [|done].
  cbn in H.
  assert (q1.(data) = q.(data) ∧ q1.(pause_frame) = q.(pause_frame)
          ∧ q1.(curr_frame_idx) = q.(curr_frame_idx)
          ∧ q1.(pbar_n) = q.(pbar_n)
          ∧ q1.(start_counter) = q.(start_counter)
          ∧ q1.(shown) = q.(shown)) as (Hd & Hpf & Hci & Hpn & Hsc & Hsh).
  { destruct q.(drawing); [by apply draw_annotations_frame_only|].
    by simplify_eq. }
  unfold draw_timer in H.
  destruct (int_of_float ct) as [ms|] eqn:Hms; [|done]. cbn in H.
  destruct (timedelta_str ms) as [label|] eqn:Hlabel; [|done]. cbn in H.
  destruct q1.(pause_frame) as [stored|] eqn:Hstored; [|done]. cbn in H.
  destruct (acquire_frame_inv _ _ _ Hacq) as [Hsc' Hct].
  simplify_eq. cbn.
  eexists q, ct, ms, label, _. split_and!; try done.
  - apply last_entry_add_curr_frame.
  - done.
  - cbn. by rewrite Hsc, Hsc', _handle_commands_start_counter.
  - eexists. split; [apply last_snoc|]. cbn. eexists. apply last_snoc.
  - intros now'. rewrite Hdraw. cbn. unfold draw_timer.
    rewrite Hms. cbn. rewrite Hlabel. cbn. rewrite Hstored. cbn.
    eexists. split; [done|]. unfold last_label. cbn.
    by rewrite last_entry_add_curr_frame.
Qed.

Lemma timer_label_is_decoder_time_witness :
  ∃ label, ∀ now' : float,
    ∃ p'', _process_video_frame now' Examples.fresh_player = Ok p''
           ∧ last_label p''.(data) = Some label.
Proof.
  assert (∃ p', _process_video_frame 3600%float Examples.fresh_player
                = Ok p') as [p' Htick]
    by (vm_compute; eexists; reflexivity).
  destruct (timer_label_is_decoder_time _ _ _ Htick)
    as (q & ct & ms & label & e & H).
  exists label. apply H.
Defined.

(** C7 as stated fails: a tick one hour of wall-clock time after the
    epoch, on a decoder reporting presentation time 0, is labelled
    ["0:00:00"]; the hour only shows in the entry's [timestamp]. *)
Lemma timer_label_ignores_wall_clock :
  ∃ p', _process_video_frame 3600%float Examples.fresh_player = Ok p'
        ∧ last_label p'.(data) = Some "0:00:00"%string
        ∧ timestamp <$> last_entry p'.(data) = Some 3600%float
        ∧ (ms ← int_of_float (3600 * 1000)%float; timedelta_str ms)
          = Ok "1:00:00"%string.
Proof. vm_compute. eexists. split; [reflexivity|]. by vm_compute. Qed.

End CaptureLoop.

(* ===================================================================== *)
(** * Properties of the save sequence *)
(* ===================================================================== *)

Section SaveSequence.
Import Py Data Session Save.

(** Closes goals saying that a removed, or never present, file is absent. *)
Ltac gone_file :=
  repeat match goal with
    | |- delete ?i _ !! ?i = None => apply lookup_delete_eq
    | |- delete ?i _ !! ?j = None =>
        destruct (decide (i = j)) as [->|];
        [apply lookup_delete_eq | rewrite lookup_delete_ne by done]
    | H : ¬ is_Some _ |- _ => apply eq_None_not_Some in H
    | H : delete ?i _ !! ?j = None, Hne : ?i ≠ ?j |- _ =>
        rewrite lookup_delete_ne in H by done
    | |- _ => assumption
    end.

Lemma process_video_data_log progress d w :
  ∃ l, (process_video_data progress d w).1.(io_log) = w.(io_log) ++ l
       ∧ Forall (λ ev, ¬ late_event ev) l.
Proof.
  unfold process_video_data. destruct d.(frames) as [|fr frs].
  - exists []. by rewrite app_nil_r.
  - exists [VideoWriterOpen d.(out_file_path)].
    split; [|by repeat constructor; cbn; auto].
    unfold io_bind, emit, write_file, io_lift. cbn -[write_frames].
    by destruct (write_frames _ _ _ _ _) as [written r].
Qed.

Lemma process_audio_data_log ev d w :
  ∃ l, (process_audio_data ev d w).1.(io_log) = w.(io_log) ++ l
       ∧ Forall (λ ev, ¬ late_event ev) l.
Proof.
  unfold process_audio_data. destruct (0 <? _).
  - unfold io_bind, io_lift, emit, io_raise, write_file.
    destruct (combined_audio d) as [samples|e].
    + exists [WavWrite d.(audio_path)].
      split; [|by repeat constructor; cbn; auto].
      by destruct ev.(wav_write_raises).
    + exists []. by rewrite app_nil_r.
  - exists []. by rewrite app_nil_r.
Qed.

(** C8, as amended (the save sequence is unguarded).  When ffmpeg runs
    and returns, whatever its exit status, [save_av_and_clean] returns
    normally, neither intermediate file is left on disk, and
    [save_annotations] then attempts the JSON write and returns normally
    even if that write fails.  When ffmpeg cannot be launched,
    [save_data] raises; from the launch on it removes no file and does not
    attempt the JSON write. *)
Theorem save_sequence_unguarded (ev : env) (d : t) (w : world) :
  match ev.(ffmpeg) with
  | FfmpegExit rc =>
      ∃ w3, save_av_and_clean ev d w = (w3, Ok tt)
        ∧ w3.(fs) !! d.(out_file_path) = None
        ∧ w3.(fs) !! d.(audio_path) = None
        ∧ ∃ w4 d', save_annotations ev d w3 = (w4, Ok d')
            ∧ w4.(io_log) = w3.(io_log) ++ [JsonOpen (json_path d)]
  | FfmpegNotLaunched =>
      save_av_and_clean ev d w
      = (World w.(fs)
               (w.(io_log)
                ++ [RunFfmpeg d.(out_file_path) d.(audio_path)
                              (merged_path d)]),
         Raise FileNotFoundError)
      ∧ ∃ w' e l, save_data ev d w = (w', Raise e)
          ∧ w'.(io_log) = w.(io_log) ++ l
          ∧ Forall (λ ev, ¬ late_event ev) l
  end.
Proof.
  destruct ev.(ffmpeg) as [rc|] eqn:Hff.
  - unfold save_av_and_clean. rewrite Hff.
    unfold io_bind, emit, os_path_exists, os_remove, io_ret, write_file.
    destruct (rc =? 0); cbn;
      destruct (bool_decide (is_Some (_ !! d.(out_file_path)))) eqn:Hv;
      cbn;
      destruct (bool_decide (is_Some (_ !! d.(audio_path)))) eqn:Ha;
      cbn;
      (eexists; split; [reflexivity|]; cbn);
      try apply bool_decide_eq_false in Hv;
      try apply bool_decide_eq_false in Ha;
      (split_and!; [gone_file | gone_file |]);
      unfold save_annotations, io_bind, emit, write_file, io_ret; cbn;
      destruct ev.(json_open_raises); eauto.
  - assert (∀ d0 w0, save_av_and_clean ev d0 w0
              = (World w0.(fs)
                   (w0.(io_log)
                    ++ [RunFfmpeg d0.(out_file_path) d0.(audio_path)
                                  (merged_path d0)]),
                 Raise FileNotFoundError)) as Hmux.
    { intros d0 w0. unfold save_av_and_clean. by rewrite Hff. }
    split; [apply Hmux|].
    unfold save_data.
    set (d0 := if String.eqb d.(out_path) "" then _ else d).
    unfold io_bind at 1.
    destruct (process_video_data_log ev.(progress_truthy) d0 w)
      as (l1 & Hl1 & Hq1).
    destruct (process_video_data ev.(progress_truthy) d0 w)
      as [w1 [[]|e1]]; cbn in Hl1.
    + unfold io_bind at 1.
      destruct (process_audio_data_log ev d0 w1) as (l2 & Hl2 & Hq2).
      destruct (process_audio_data ev d0 w1) as [w2 [[]|e2]]; cbn in Hl2.
      * unfold io_bind. rewrite Hmux.
        eexists _, _, (l1 ++ l2 ++ [_]). split; [done|]. cbn.
        split; [by rewrite Hl2, Hl1, <-!app_assoc|].
        apply Forall_app. split; [done|]. apply Forall_app.
        split; [done|]. by repeat constructor; cbn; auto.
      * eexists _, _, (l1 ++ l2). split; [done|].
        split; [by rewrite Hl2, Hl1, <-!app_assoc|].
        by apply Forall_app.
    + by eexists _, _, l1.
Qed.

(** C8 as stated fails on both counts: when ffmpeg runs and exits with
    status 1, the intermediate video and audio files are deleted although
    nothing was merged; when ffmpeg cannot be launched, the save ends
    there and the annotation JSON is never attempted. *)
Lemma failed_mux_still_cleans_up :
  let failed := save_data Examples.mux_fails Examples.captured_store
                          Examples.empty_world in
  let missing := save_data Examples.mux_missing Examples.captured_store
                           Examples.empty_world in
  returns failed.2
  ∧ failed.1.(io_log)
    = [VideoWriterOpen "out/clip_annotated.mp4";
       WavWrite "out/clip.wav";
       RunFfmpeg "out/clip_annotated.mp4" "out/clip.wav"
                 "out/clip_annotated_annotated.mp4";
       OsRemove "out/clip_annotated.mp4";
       OsRemove "out/clip.wav";
       JsonOpen "out/clip_annotated_annotated.json"]
  ∧ failed.1.(fs) !! "out/clip_annotated.mp4" = None
  ∧ failed.1.(fs) !! "out/clip.wav" = None
  ∧ failed.1.(fs) !! "out/clip_annotated_annotated.mp4" = None
  ∧ missing.2 = Raise FileNotFoundError
  ∧ missing.1.(io_log)
    = [VideoWriterOpen "out/clip_annotated.mp4";
       WavWrite "out/clip.wav";
       RunFfmpeg "out/clip_annotated.mp4" "out/clip.wav"
                 "out/clip_annotated_annotated.mp4"].
Proof. vm_compute. split_and!; try reflexivity. eexists. reflexivity. Qed.

End SaveSequence.

(* ===================================================================== *)
(** * Properties of the playback *)
(* ===================================================================== *)

Section Playback.
Import Py Data Session Save AnnotatedPlayer.

Lemma pretty_N_go_no_m (x : N) (s : string) :
  ¬ starts_with_m s → ¬ starts_with_m (pretty_N_go x s).
Proof.
  revert s. induction (N.lt_wf_0 x) as [x _ IH]. intros s Hs.
  destruct (decide (x = 0)%N) as [->|Hx].
  - by rewrite pretty_N_go_0.
  - rewrite pretty_N_go_step by lia. apply IH.
    + apply N.div_lt; lia.
    + unfold pretty_N_char. cbn. by repeat case_match.
Qed.

Lemma pretty_Z_not_metadata (i : Z) : pretty i ≠ "metadata".
Proof.
  assert (¬ starts_with_m (pretty i)) as Hi.
  { destruct i as [|x|x]; [by intros [=] | | by intros [=]].
    unfold pretty, pretty_Z, pretty, pretty_positive, pretty, pretty_N.
    case_decide; [by intros [=]|]. apply pretty_N_go_no_m. by intros []. }
  intros Heq. rewrite Heq in Hi. by apply Hi.
Qed.

(** What is written for a frame index is what the file holds under the
    string of that index. *)
Lemma json_round_trip_lookup (d : Data.t) (i : Z) :
  json_of_annotations d !! pretty i = VEntry <$> d.(annotations) !! i.
Proof.
  unfold json_of_annotations.
  destruct d.(annotations_metadata) as [m|].
  - rewrite lookup_insert_ne by (symmetry; apply pretty_Z_not_metadata).
    rewrite lookup_kmap; [apply lookup_fmap | apply pretty_Z_inj].
  - rewrite lookup_kmap; [apply lookup_fmap | apply pretty_Z_inj].
Qed.

Lemma _process_frame_with_meta m' f n p :
  m' !! pretty n = p.(meta) !! pretty n →
  _process_frame f n (with_meta m' p)
  = (λ qf, (with_meta m' qf.1, qf.2)) <$> _process_frame f n p.
Proof.
  intros Hm. unfold _process_frame. cbn. rewrite Hm.
  destruct (p.(meta) !! pretty n) as [[e|md]|]; [|done|done].
  unfold _draw_annotations, _draw_move_annotations,
    _finalize_annotation_chunk, with_meta.
  destruct e.(anno) as [|c pt]; cbn; [done|].
  repeat (case_match; cbn in *; simplify_eq); done.
Qed.

Lemma _process_frame_meta f n p q f' :
  _process_frame f n p = Ok (q, f') → q.(meta) = p.(meta).
Proof.
  unfold _process_frame, _draw_annotations, _draw_move_annotations,
    _finalize_annotation_chunk.
  intros H. repeat (case_match; cbn in *; simplify_eq); done.
Qed.

Lemma show_loop_with_meta quit m' unread read p :
  (∀ n : nat, (read < n)%nat →
     m' !! pretty (Z.of_nat n) = p.(meta) !! pretty (Z.of_nat n)) →
  show_loop quit unread read (with_meta m' p)
  = (λ qf, (with_meta m' qf.1, qf.2)) <$> show_loop quit unread read p.
Proof.
  revert read p. induction unread as [|f unread IH]; intros read p Hm.
  - done.
  - cbn [show_loop]. rewrite _process_frame_with_meta by (apply Hm; lia).
    destruct (_process_frame f (Z.of_nat (S read)) p) as [[q f']|e] eqn:Hq;
      [|done].
    py_run. destruct (quit read); [done|].
    rewrite IH.
    + by destruct (show_loop quit unread (S read) q) as [[q' fs]|].
    + intros n Hn. rewrite (_process_frame_meta _ _ _ _ _ Hq).
      apply Hm. lia.
Qed.

(** C4 (round trip), where it fails.  What [show] displays does not depend
    on what the timeline holds under ["0"]: the frame number it looks up
    is the number of frames read so far, which is 1 after the first read,
    so the entry written for logical frame index 0 is never replayed. *)
Theorem playback_never_reads_frame_zero
    (quit : nat → bool) (watch_file : list image) (p : AnnotatedPlayer.t)
    (v : dval) :
  displayed (show quit watch_file (with_meta (<["0" := v]> p.(meta)) p))
  = displayed (show quit watch_file p).
Proof.
  unfold displayed, show. rewrite show_loop_with_meta.
  - by destruct (show_loop quit watch_file 0 p) as [[q fs]|].
  - intros n Hn. apply lookup_insert_ne.
    change "0"%string with (pretty 0%Z).
    intros Heq. apply (inj pretty) in Heq. lia.
Qed.

(** The failing input of C4: two frames are captured, a stroke is started
    on the first, and the session is saved.  The file holds the stroke and
    the label ["0:00:00"] under ["0"] and the label ["0:00:01"] under
    ["1"]; playing the two frames back draws the label of ["1"] on the
    first frame and nothing on the second, and never starts the stroke. *)
Lemma round_trip_loses_first_frame :
  let saved := save_data Examples.all_fine Examples.stroke_store
                         Examples.empty_world in
  ∃ obj,
    load_metadata "out/clip_annotated_annotated.json" saved.1 = Some obj
    ∧ obj !! "0"
      = Some (VEntry (Entry 0 1 "0:00:00" (AnnoCmd "start" (1, 2))
                            0.5%float))
    ∧ obj !! "1"
      = Some (VEntry (Entry 1 2 "0:00:01" AnnoEmpty 1.5%float))
    ∧ show (λ _, false) [Examples.blank; Examples.blank]
           (AnnotatedPlayer.Mk false [] obj None)
      = Ok (AnnotatedPlayer.Mk false [] obj None,
            [Image [] [Text "0:00:01" (-75, -20)]; Examples.blank]).
Proof. vm_compute. eexists. split_and!; reflexivity. Qed.

End Playback.

(* ===================================================================== *)
(** * Further properties of the gap reconciler *)
(* ===================================================================== *)

Section GapReconciler.
Import Py Data Session.

(** X1.  The gaps reported are exactly the pairs of timestamps of two
    consecutive frames that lie more than the threshold apart. *)
Theorem identify_video_gaps_exact (threshold a b : float) (d : t) :
  (a, b) ∈ identify_video_gaps threshold d
  ↔ ∃ (i : nat) fa fb,
      d.(frames) !! i = Some fa ∧ d.(frames) !! S i = Some fb
      ∧ frame_time fa = a ∧ frame_time fb = b
      ∧ flt threshold (b - a)%float = true.
Proof.
  unfold identify_video_gaps. rewrite list_elem_of_In, in_flat_map.
  split.
  - intros (i & Hi & Hin). apply in_seq in Hi.
    destruct i as [|i]; [lia|]. cbn in Hin.
    rewrite Nat.sub_0_r in Hin.
    destruct (d.(frames) !! i) as [[[ta ia] ra]|] eqn:Ha; [|done].
    destruct (d.(frames) !! S i) as [[[tb ib] rb]|] eqn:Hb; [|done].
    destruct (PrimFloat.ltb threshold (tb - ta)%float) eqn:Hgap; [|done].
    destruct Hin as [Heq|[]]. simplify_eq.
    by exists i, (a, ia, ra), (b, ib, rb).
  - intros (i & [[ta ia] ra] & [[tb ib] rb] & Ha & Hb & <- & <- & Hgap).
    exists (S i). split.
    + apply in_seq. apply lookup_lt_Some in Hb. lia.
    + cbn. rewrite Nat.sub_0_r, Ha, Hb. unfold frame_time, flt in *.
      cbn in *. rewrite Hgap. by left.
Qed.

Lemma add_before_gap_prefix gs synced rest :
  ∃ kept,
    (add_before_gap gs synced rest).1 = synced ++ kept
    ∧ snd <$> rest = kept ++ (snd <$> (add_before_gap gs synced rest).2).
Proof.
  revert synced. induction rest as [|[ts chunk] rest IH]; intros synced.
  - exists []. by rewrite app_nil_r.
  - cbn. destruct (PrimFloat.ltb ts gs).
    + destruct (IH (synced ++ [chunk])) as (kept & H1 & H2).
      exists (chunk :: kept). rewrite H1, <-app_assoc. split; [done|].
      cbn. by rewrite H2.
    + exists []. by rewrite app_nil_r.
Qed.

Lemma skip_during_gap_sublist ge rest :
  (snd <$> skip_during_gap ge rest) `sublist_of` (snd <$> rest).
Proof.
  induction rest as [|[ts chunk] rest IH]; [done|].
  cbn. destruct (PrimFloat.ltb ts ge); [by apply sublist_cons | done].
Qed.

Lemma walk_gaps_sublist gaps synced rest :
  ∃ kept,
    (walk_gaps gaps synced rest).1 = synced ++ kept
    ∧ (kept ++ (snd <$> (walk_gaps gaps synced rest).2))
        `sublist_of` (snd <$> rest).
Proof.
  revert synced rest.
  induction gaps as [|[gs ge] gaps IH]; intros synced rest.
  - exists []. by rewrite app_nil_r.
  - cbn. destruct (add_before_gap_prefix gs synced rest) as (k1 & H1 & H2).
    destruct (add_before_gap gs synced rest) as [synced' rest'].
    cbn in H1, H2. subst synced'.
    destruct (IH (synced ++ k1) (skip_during_gap ge rest'))
      as (k2 & H3 & H4).
    exists (k1 ++ k2). rewrite H3, <-!app_assoc. split; [done|].
    rewrite H2. apply sublist_app; [done|].
    etrans; [exact H4 | apply skip_during_gap_sublist].
Qed.

(** X2.  [combined_audio] always returns the concatenation of the chunks
    it kept, and the chunks kept are a subsequence of the recorded chunks:
    none is invented, duplicated or reordered. *)
Theorem combined_audio_subsequence (d : t) :
  combined_audio d = Ok (concat (synced_audio_of d))
  ∧ synced_audio_of d `sublist_of` (snd <$> d.(audio_data)).
Proof.
  split.
  - unfold combined_audio. by destruct (synced_audio_of d).
  - unfold synced_audio_of.
    destruct (walk_gaps_sublist (identify_video_gaps 0.1%float d) []
                                d.(audio_data)) as (kept & H1 & H2).
    destruct (walk_gaps _ _ _) as [synced rest]. cbn in H1, H2.
    by subst synced.
Qed.

(** X3.  When no gap is detected nothing is cut: [combined_audio] returns
    all recorded chunks concatenated in recording order. *)
Theorem combined_audio_without_gaps (d : t) :
  identify_video_gaps 0.1%float d = [] →
  combined_audio d = Ok (concat (snd <$> d.(audio_data))).
Proof.
  intros Hgaps. unfold combined_audio, synced_audio_of. rewrite Hgaps.
  cbn. by destruct (snd <$> d.(audio_data)).
Qed.

Lemma combined_audio_without_gaps_witness :
  combined_audio Examples.steady_store = Ok [[1]; [2]; [3]].
Proof.
  apply (combined_audio_without_gaps Examples.steady_store). reflexivity.
Defined.

End GapReconciler.

(* ===================================================================== *)
(** * Further properties of the timeline store *)
(* ===================================================================== *)

Section TimelineStoreMore.
Import Py Data Session.

(** X4.  [max_frames] is a high-water mark of [add_curr_frame]: one call
    raises it by one exactly when the decoder index passed equals it, and
    never lowers it; over any run of calls it grows by at most the number
    of calls. *)
Theorem max_frames_high_water (d : t) (c : append_call)
    (calls : list append_call) :
  (run_call d c).(max_frames)
  = d.(max_frames) + (if c.(ac_frame_idx) =? d.(max_frames) then 1 else 0)
  ∧ d.(max_frames) ≤ (run_calls d calls).(max_frames)
                   ≤ d.(max_frames) + Z.of_nat (length calls).
Proof.
  assert (∀ d c, (run_call d c).(max_frames)
            = d.(max_frames)
              + (if c.(ac_frame_idx) =? d.(max_frames) then 1 else 0))
    as Hone.
  { intros d' c'. unfold run_call, add_curr_frame.
    destruct (_ =? _); cbn; destruct (_ !! _); cbn; lia. }
  split; [apply Hone|].
  revert d. induction calls as [|c' calls IH]; intros d; [cbn; lia|].
  cbn [run_calls foldl length]. specialize (IH (run_call d c')).
  unfold run_calls in IH. rewrite Hone in IH.
  destruct (_ =? _); lia.
Qed.

Lemma max_int_key_spec (m : gmap Z entry) :
  match max_int_key m with
  | None => m = ∅
  | Some k => is_Some (m !! k) ∧ ∀ j, is_Some (m !! j) → j ≤ k
  end.
Proof.
  unfold max_int_key.
  apply (map_fold_weak_ind
           (λ r m, match r with
                   | None => m = ∅
                   | Some k => is_Some (m !! k)
                               ∧ ∀ j, is_Some (m !! j) → j ≤ k
                   end)); [done|].
  intros i x m' r Hi IH. destruct r as [a|].
  - destruct IH as [Ha Hmax]. split.
    + destruct (decide (i = Z.max a i)) as [<-|Hne].
      * rewrite lookup_insert_eq. eauto.
      * rewrite lookup_insert_ne by done.
        by replace (Z.max a i) with a by lia.
    + intros j Hj. destruct (decide (i = j)) as [->|Hne]; [lia|].
      rewrite lookup_insert_ne in Hj by done. specialize (Hmax j Hj). lia.
  - subst m'. split.
    + rewrite lookup_insert_eq. eauto.
    + intros j Hj. destruct (decide (i = j)) as [->|Hne]; [lia|].
      rewrite lookup_insert_ne, lookup_empty in Hj by done.
      by destruct Hj.
Qed.

(** In a store in lockstep the newest entry is the one read. *)
Lemma get_last_anno_lockstep (d : t) :
  lockstep d → get_last_anno d = Ok (anno <$> last_entry d).
Proof.
  intros [Hm Hdom]. unfold get_last_anno, last_entry, get_frames_length.
  destruct d.(frames) as [|fr frs] eqn:Hfr.
  - change (Z.of_nat (length (@nil (float * Z * image)))) with 0 in *.
    change (0 - 1) with (-1).
    assert (d.(annotations) !! (-1) = None) as ->; [|done].
    apply eq_None_not_Some. rewrite Hdom. lia.
  - set (n := length (fr :: frs)) in *.
    assert (is_Some (d.(annotations) !! (Z.of_nat n - 1))) as Hlast.
    { apply Hdom. unfold n. cbn. lia. }
    assert ((Z.of_nat n =? 0) = false) as ->
      by (apply Z.eqb_neq; unfold n; cbn; lia).
    assert ((get_annotations_length d =? 0) = false) as ->.
    { apply Z.eqb_neq. unfold get_annotations_length. rewrite Hm.
      intros Hsz. assert (size d.(annotations) = 0%nat) as Hz by lia.
      apply map_size_empty_iff in Hz. rewrite Hz, lookup_empty in Hlast.
      by destruct Hlast. }
    cbn. unfold max_key. rewrite Hm.
    pose proof (max_int_key_spec d.(annotations)) as Hmax.
    destruct (max_int_key d.(annotations)) as [k|].
    + destruct Hmax as [Hk Hle].
      assert (k = Z.of_nat n - 1) as ->.
      { apply Hle in Hlast. apply Hdom in Hk. lia. }
      py_run. unfold get_annotation, annotations_get.
      destruct Hlast as [e He]. by rewrite He.
    + rewrite Hmax, lookup_empty in Hlast. by destruct Hlast.
Qed.

Lemma lockstep_add_annotation command p d :
  lockstep d → lockstep (add_annotation command p d).
Proof.
  intros Hd. destruct d.(frames) as [|fr frs] eqn:Hfr.
  - unfold add_annotation, get_frames_length. by rewrite Hfr.
  - destruct (last_entry d) as [e|] eqn:He.
    + rewrite (add_annotation_eq _ _ _ e) by (done || by rewrite Hfr).
      destruct Hd as [Hm Hdom]. split; [done|]. intros j. cbn.
      rewrite <-Hdom.
      destruct (decide (get_frames_length d - 1 = j)) as [<-|Hne].
      * rewrite lookup_insert_eq. unfold last_entry in He. rewrite He.
        split; eauto.
      * by rewrite lookup_insert_ne.
    + unfold add_annotation, get_frames_length. rewrite Hfr.
      unfold last_entry, get_frames_length in He. rewrite Hfr in He.
      cbn in *. by rewrite He.
Qed.

Lemma lockstep_run_op d op : lockstep d → lockstep (run_op d op).
Proof.
  intros Hd. destruct op as [c| | | | |]; cbn.
  - by apply lockstep_add_curr_frame.
  - by apply lockstep_add_annotation.
  - done.
  - done.
  - done.
  - by apply lockstep_fresh.
Qed.

(** X5.  Lockstep is an invariant of the store: starting from a store in
    lockstep (a fresh one, for instance), after any sequence of calls of
    [add_curr_frame], [add_annotation], [add_audio_data],
    [update_curr_frame], [update_max_frames] and [clean] the keys of
    [self.annotations] are exactly the logical indices of the stored
    frames, and [get_last_anno] does not raise: it returns the [anno] of
    the newest frame's entry, or [None] when there is no frame. *)
Theorem store_ops_keep_lockstep (d0 : t) (ops : list store_op) :
  lockstep d0 →
  let d := run_ops d0 ops in
  lockstep d ∧ get_last_anno d = Ok (anno <$> last_entry d).
Proof.
  intros Hd0 d. assert (lockstep d) as Hd.
  { unfold d. clear d. revert d0 Hd0.
    induction ops as [|op ops IH]; intros d0 Hd0; [done|].
    cbn. apply IH. by apply lockstep_run_op. }
  split; [done | by apply get_last_anno_lockstep].
Qed.

Lemma store_ops_keep_lockstep_witness :
  let d := run_ops Examples.fresh_store Examples.mixed_ops in
  lockstep d ∧ get_last_anno d = Ok (anno <$> last_entry d).
Proof.
  apply (store_ops_keep_lockstep Examples.fresh_store Examples.mixed_ops).
  by apply lockstep_fresh.
Defined.

(** X6.  A stroke command written is the one read back: on a store in
    lockstep with at least one frame, [get_last_anno] right after
    [add_annotation command point] returns [[command, point]], with
    ["start"] in place of the command when the newest frame already held
    a start. *)
Theorem add_annotation_then_get_last_anno
    (command : string) (p : point) (d : t) :
  lockstep d →
  d.(frames) ≠ [] →
  ∃ e, last_entry d = Some e
       ∧ get_last_anno (add_annotation command p d)
         = Ok (Some (AnnoCmd (if is_start e.(anno) then "start"
                              else command) p)).
Proof.
  intros Hd Hne.
  assert (is_Some (last_entry d)) as [e He].
  { destruct Hd as [_ Hdom]. apply Hdom. unfold get_frames_length.
    destruct d.(frames); [done | cbn; lia]. }
  exists e. split; [done|].
  rewrite get_last_anno_lockstep by by apply lockstep_add_annotation.
  rewrite (add_annotation_eq _ _ _ e) by done.
  unfold last_entry. cbn.
  replace (get_frames_length (set_annotations _ d))
    with (get_frames_length d) by done.
  by rewrite lookup_insert_eq.
Qed.

Lemma add_annotation_then_get_last_anno_witness :
  ∃ e, last_entry Examples.one_frame_store = Some e
       ∧ get_last_anno (add_annotation "end" (8, 9) Examples.one_frame_store)
         = Ok (Some (AnnoCmd (if is_start e.(anno) then "start"
                              else "end") (8, 9))).
Proof.
  apply (add_annotation_then_get_last_anno
           "end" (8, 9) Examples.one_frame_store).
  - apply lockstep_add_curr_frame. by apply lockstep_fresh.
  - discriminate.
Defined.

End TimelineStoreMore.

(* ===================================================================== *)
(** * Further properties of the save sequence *)
(* ===================================================================== *)

Section SaveMore.
Import Py Data Session Save.

(** X7.  Once [save_annotations] has run on a session with at least one
    frame, [self.annotations] holds int keys and the str key
    ["metadata"], and [get_last_anno] raises [TypeError] (from [max] over
    the mixed keys) instead of returning the newest stroke; the frames and
    the int-keyed entries themselves are untouched. *)
Theorem get_last_anno_after_save (ev : env) (d : t) (w : world) :
  lockstep d →
  d.(frames) ≠ [] →
  ∃ w' d', save_annotations ev d w = (w', Ok d')
           ∧ d'.(frames) = d.(frames)
           ∧ d'.(annotations) = d.(annotations)
           ∧ get_last_anno d' = Raise TypeError.
Proof.
  intros [Hm Hdom] Hne.
  unfold save_annotations, io_bind, emit, write_file, io_ret. cbn.
  destruct ev.(json_open_raises); (eexists _, _; split; [reflexivity|]);
    (split; [done|]); (split; [done|]);
    unfold get_last_anno, get_frames_length, get_annotations_length,
      max_key; cbn;
    (assert (is_Some (d.(annotations)
                        !! (Z.of_nat (length d.(frames)) - 1))) as Hlast
       by (apply Hdom; destruct d.(frames); [done | cbn; lia]));
    (assert ((Z.of_nat (length d.(frames)) =? 0) = false) as ->
       by (apply Z.eqb_neq; destruct d.(frames); [done | cbn; lia]));
    (assert ((Z.of_nat (size d.(annotations)) + 1 =? 0) = false) as ->
       by (apply Z.eqb_neq; lia));
    cbn; pose proof (max_int_key_spec d.(annotations)) as Hmax;
    (destruct (max_int_key d.(annotations)); [done|]);
    rewrite Hmax, lookup_empty in Hlast; by destruct Hlast.
Qed.

Lemma get_last_anno_after_save_witness :
  ∃ w' d', save_annotations Examples.all_fine Examples.one_frame_store
                            Examples.empty_world = (w', Ok d')
           ∧ d'.(frames) = Examples.one_frame_store.(frames)
           ∧ d'.(annotations) = Examples.one_frame_store.(annotations)
           ∧ get_last_anno d' = Raise TypeError.
Proof.
  apply (get_last_anno_after_save Examples.all_fine
           Examples.one_frame_store Examples.empty_world).
  - apply lockstep_add_curr_frame. by apply lockstep_fresh.
  - discriminate.
Defined.

(** X8.  The timeline file: when the write succeeds, the object found
    under the path [json_path] holds, under [str(i)], exactly the entry of
    frame index [i] (nothing when there is none), under ["metadata"] the
    session metadata with [frame_count] taken from [max_frames], and no
    other key; no frame index collides with the reserved key. *)
Theorem saved_timeline_contents (ev : env) (d : t) (w : world) :
  ev.(json_open_raises) = false →
  ∃ w' d' obj,
    save_annotations ev d w = (w', Ok d')
    ∧ load_metadata (json_path d) w' = Some obj
    ∧ (∀ i : Z, obj !! pretty i = VEntry <$> d.(annotations) !! i)
    ∧ obj !! "metadata" = Some (VMeta (metadata_of d))
    ∧ ∀ key v, obj !! key = Some v →
        key = "metadata"%string
        ∨ ∃ i e, key = pretty i ∧ v = VEntry e
                 ∧ d.(annotations) !! i = Some e.
Proof.
  intros Hok.
  unfold save_annotations, io_bind, emit, write_file, io_ret. cbn.
  rewrite Hok. eexists _, _, _. split; [reflexivity|].
  unfold load_metadata, json_path. cbn. rewrite lookup_insert_eq.
  split; [reflexivity|].
  unfold json_of_annotations. cbn. split_and!.
  - intros i.
    rewrite lookup_insert_ne by (symmetry; apply pretty_Z_not_metadata).
    rewrite lookup_kmap; [apply lookup_fmap | apply pretty_Z_inj].
  - by rewrite lookup_insert_eq.
  - intros key v Hkey.
    destruct (decide (key = "metadata"%string)) as [|Hne]; [by left|].
    right. rewrite lookup_insert_ne in Hkey by done.
    apply (lookup_kmap_Some _ (Inj0 := pretty_Z_inj)) in Hkey
      as (i & -> & Hi).
    rewrite lookup_fmap in Hi.
    destruct (d.(annotations) !! i) as [e|] eqn:He; [|done].
    cbn in Hi. simplify_eq. eauto.
Qed.

Lemma saved_timeline_contents_witness :
  ∃ w' d' obj,
    save_annotations Examples.all_fine Examples.stroke_store
                     Examples.empty_world = (w', Ok d')
    ∧ load_metadata (json_path Examples.stroke_store) w' = Some obj
    ∧ (∀ i : Z, obj !! pretty i
                = VEntry <$> Examples.stroke_store.(annotations) !! i)
    ∧ obj !! "metadata" = Some (VMeta (metadata_of Examples.stroke_store))
    ∧ ∀ key v, obj !! key = Some v →
        key = "metadata"%string
        ∨ ∃ i e, key = pretty i ∧ v = VEntry e
                 ∧ Examples.stroke_store.(annotations) !! i = Some e.
Proof.
  apply (saved_timeline_contents Examples.all_fine Examples.stroke_store
           Examples.empty_world).
  reflexivity.
Defined.

Lemma imap_snd {A B} (f : nat → A → B * A) (l : list A) :
  (∀ i x, (f i x).2 = x) → snd <$> imap f l = l.
Proof.
  revert f. induction l as [|x l IH]; intros f Hf; [done|].
  cbn. rewrite Hf, IH; [done|]. intros i y. apply Hf.
Qed.

Lemma write_frames_ok progress last_index mf written items :
  progress = false ∨ last_index ≠ 0 →
  write_frames progress last_index mf written items
  = (written
     ++ ((λ fr : float * Z * image, fr.2)
           <$> filter (λ fr : float * Z * image, fr.1.2 < mf)
                      (snd <$> items)),
     Ok tt).
Proof.
  intros Hok. revert written.
  induction items as [|[i [[ts idx] f]] items IH]; intros written.
  - cbn. by rewrite app_nil_r.
  - cbn [write_frames write_frame fmap list_fmap]. rewrite filter_cons.
    cbn. destruct (idx <? mf) eqn:Hidx.
    + apply Z.ltb_lt in Hidx. rewrite decide_True by done.
      assert ((if progress
               then if last_index =? 0 then Raise ZeroDivisionError
                    else Ok (written ++ [f])
               else Ok (written ++ [f])) = Ok (written ++ [f])) as ->.
      { destruct Hok as [->|Hli]; [done|]. destruct progress; [|done].
        apply Z.eqb_neq in Hli. by rewrite Hli. }
      rewrite IH. cbn. by rewrite <-app_assoc.
    + apply Z.ltb_ge in Hidx. rewrite decide_False by lia. apply IH.
Qed.

(** X9.  [process_video_data] on a session with no frame writes nothing;
    on a session with two or more frames (or with any frames, when no
    truthy progress window is passed) it returns normally and the video
    file holds exactly the stored frames whose decoder index is below
    [max_frames], in stored order. *)
Theorem process_video_data_writes_kept_frames
    (progress : bool) (d : t) (w : world) :
  progress = false ∨ length d.(frames) ≠ 1%nat →
  process_video_data progress d w
  = match d.(frames) with
    | [] => (w, Ok tt)
    | _ =>
        (World (<[d.(out_file_path) := VideoFile (kept_frames d)]> w.(fs))
               (w.(io_log) ++ [VideoWriterOpen d.(out_file_path)]),
         Ok tt)
    end.
Proof.
  intros Hok. unfold process_video_data.
  destruct d.(frames) as [|fr frs] eqn:Hfr; [done|].
  unfold io_bind, emit, write_file, io_lift.
  rewrite write_frames_ok.
  - cbn -[imap]. rewrite imap_snd by done.
    unfold kept_frames. by rewrite Hfr.
  - destruct Hok as [->|Hlen]; [by left|]. right. cbn in *. lia.
Qed.

Lemma process_video_data_writes_kept_frames_witness :
  process_video_data true Examples.captured_store Examples.empty_world
  = (World {[ "out/clip_annotated.mp4"
               := VideoFile [Examples.blank; Examples.blank] ]}
           [VideoWriterOpen "out/clip_annotated.mp4"],
     Ok tt).
Proof.
  rewrite (process_video_data_writes_kept_frames
             true Examples.captured_store Examples.empty_world);
    [by vm_compute | right; vm_compute; lia].
Defined.

(** X10.  A session of exactly one frame cannot be saved when the
    progress window is truthy: the progress fraction [idx / last_index]
    is 0 / 0, [save_data] raises [ZeroDivisionError] right after the
    video writer is opened, and neither the audio file, the merge nor the
    annotation file is attempted. *)
Theorem save_data_single_frame_raises
    (ev : env) (d : t) (w : world) (ts : float) (index : Z) (f : image) :
  d.(frames) = [(ts, index, f)] →
  index < d.(max_frames) →
  ev.(progress_truthy) = true →
  ∃ w', save_data ev d w = (w', Raise ZeroDivisionError)
        ∧ w'.(io_log) = w.(io_log) ++ [VideoWriterOpen d.(out_file_path)].
Proof.
  intros Hfr Hidx Hprog. unfold save_data.
  set (d0 := if String.eqb d.(out_path) "" then _ else d).
  assert (d0.(frames) = [(ts, index, f)]
          ∧ d0.(max_frames) = d.(max_frames)
          ∧ d0.(out_file_path) = d.(out_file_path)) as (Hfr0 & Hmax0 & Hout0).
  { unfold d0. by destruct (String.eqb _ _). }
  unfold io_bind at 1. unfold process_video_data. rewrite Hfr0, Hprog.
  unfold io_bind, emit, write_file, io_lift. cbn.
  rewrite Hmax0. apply Z.ltb_lt in Hidx. rewrite Hidx. cbn.
  rewrite Hout0. by eexists.
Qed.

Lemma save_data_single_frame_raises_witness :
  ∃ w', save_data Examples.all_fine Examples.one_frame_store
                  Examples.empty_world = (w', Raise ZeroDivisionError)
        ∧ w'.(io_log) = [VideoWriterOpen "out/clip_annotated.mp4"].
Proof.
  apply (save_data_single_frame_raises
           Examples.all_fine Examples.one_frame_store Examples.empty_world
           0.5%float 0 Examples.blank);
    [by vm_compute | by vm_compute | reflexivity].
Defined.

(** X11.  [process_audio_data] writes nothing when no audio chunk was
    recorded; otherwise, when the writer succeeds, the audio file holds
    the sample rate and the concatenation of the chunks that survive the
    gap reconciliation (an empty array if none does). *)
Theorem process_audio_data_writes_reconciled (ev : env) (d : t) (w : world) :
  ev.(wav_write_raises) = false →
  process_audio_data ev d w
  = match d.(audio_data) with
    | [] => (w, Ok tt)
    | _ =>
        (World (<[d.(audio_path)
                  := WavFile d.(sample_rate) (concat (synced_audio_of d))]>
                  w.(fs))
               (w.(io_log) ++ [WavWrite d.(audio_path)]),
         Ok tt)
    end.
Proof.
  intros Hok. unfold process_audio_data.
  destruct d.(audio_data) as [|a au] eqn:Hau; [done|]. cbn [length].
  assert ((0 <? Z.of_nat (S (length au))) = true) as -> by (apply Z.ltb_lt; lia).
  unfold io_bind, io_lift, emit, write_file.
  assert (combined_audio d = Ok (concat (synced_audio_of d))) as ->.
  { unfold combined_audio. by destruct (synced_audio_of d). }
  by rewrite Hok.
Qed.

Lemma process_audio_data_writes_reconciled_witness :
  process_audio_data Examples.all_fine Examples.gap_store
                     Examples.empty_world
  = (World {[ "out/clip.wav" := WavFile 44100 [[10]; [11]; [14]; [15]] ]}
           [WavWrite "out/clip.wav"],
     Ok tt).
Proof.
  rewrite (process_audio_data_writes_reconciled
             Examples.all_fine Examples.gap_store Examples.empty_world);
    by vm_compute.
Defined.

(** X12.  Saving an empty session (no frame, no audio chunk, no
    annotation) while no stale intermediate file is around: no video and
    no audio file is written, ffmpeg is launched all the same on the two
    missing inputs, and when it exits with an error the annotation file
    is still written, holding the metadata alone. *)
Theorem save_data_empty_session
    (ev : env) (d : t) (w : world) (rc : Z) :
  d.(frames) = [] →
  d.(audio_data) = [] →
  d.(annotations) = ∅ →
  ev.(ffmpeg) = FfmpegExit rc →
  rc ≠ 0 →
  ev.(json_open_raises) = false →
  w.(fs) !! d.(out_file_path) = None →
  w.(fs) !! d.(audio_path) = None →
  ∃ d', save_data ev d w
        = (World (<[json_path d
                    := JsonFile {[ "metadata"%string
                                     := VMeta (metadata_of d) ]}]> w.(fs))
                 (w.(io_log)
                  ++ [RunFfmpeg d.(out_file_path) d.(audio_path)
                                (merged_path d);
                      JsonOpen (json_path d)]),
           Ok d').
Proof.
  intros Hfr Hau Han Hff Hrc Hjson Hv Ha. unfold save_data.
  set (d0 := if String.eqb d.(out_path) "" then _ else d).
  assert (d0.(frames) = [] ∧ d0.(audio_data) = []
          ∧ d0.(annotations) = ∅
          ∧ d0.(out_file_path) = d.(out_file_path)
          ∧ d0.(audio_path) = d.(audio_path)
          ∧ json_path d0 = json_path d
          ∧ merged_path d0 = merged_path d
          ∧ metadata_of d0 = metadata_of d)
    as (Hfr0 & Hau0 & Han0 & Hout0 & Haud0 & Hjp & Hmp & Hmd).
  { unfold d0. by destruct (String.eqb _ _). }
  assert (process_video_data ev.(progress_truthy) d0 w = (w, Ok tt)) as H1.
  { unfold process_video_data. by rewrite Hfr0. }
  assert (process_audio_data ev d0 w = (w, Ok tt)) as H2.
  { unfold process_audio_data. by rewrite Hau0. }
  assert (save_av_and_clean ev d0 w
          = (World w.(fs)
                   (w.(io_log)
                    ++ [RunFfmpeg d.(out_file_path) d.(audio_path)
                                  (merged_path d)]), Ok tt)) as H3.
  { unfold save_av_and_clean. rewrite Hff, Hmp, Hout0, Haud0.
    apply Z.eqb_neq in Hrc. rewrite Hrc.
    unfold io_bind, emit, io_ret, os_path_exists, os_remove. cbn.
    rewrite bool_decide_eq_false_2 by (rewrite Hv; by intros [? ?]). cbn.
    by rewrite bool_decide_eq_false_2 by (rewrite Ha; by intros [? ?]). }
  unfold io_bind. rewrite H1, H2, H3.
  unfold save_annotations, io_bind, emit, write_file, io_ret. cbn.
  rewrite Hjson. eexists. f_equal. f_equal.
  - unfold json_path in *. cbn. rewrite Hout0.
    f_equal. f_equal. unfold json_of_annotations. cbn. rewrite Han0.
    rewrite fmap_empty, kmap_empty. unfold metadata_of in Hmd.
    by rewrite insert_empty, Hmd.
  - rewrite <-app_assoc. cbn. unfold json_path. cbn. by rewrite Hout0.
Qed.

Lemma save_data_empty_session_witness :
  ∃ d', save_data Examples.nothing_fine Examples.fresh_store
                  Examples.empty_world
        = (World {[ "out/clip_annotated_annotated.json"%string
                     := JsonFile {[ "metadata"%string
                                     := VMeta (metadata_of
                                                 Examples.fresh_store) ]} ]}
                 [RunFfmpeg "out/clip_annotated.mp4" "out/clip.wav"
                            "out/clip_annotated_annotated.mp4";
                  JsonOpen "out/clip_annotated_annotated.json"],
           Ok d').
Proof.
  apply (save_data_empty_session
           Examples.nothing_fine Examples.fresh_store Examples.empty_world
           1); try reflexivity. lia.
Defined.

End SaveMore.

(* ===================================================================== *)
(** * Further properties of the capture loop *)
(* ===================================================================== *)

Section CaptureLoopMore.
Import Py Data Session VideoPlayer.

(** The overlay changes [frame], [start_point] and [annotation_chunk]
    only. *)
Lemma draw_annotations_overlay_only p q :
  draw_annotations p = Ok q →
  q.(data) = p.(data) ∧ q.(cap) = p.(cap)
  ∧ q.(pause_frame) = p.(pause_frame)
  ∧ q.(last_frame_time) = p.(last_frame_time)
  ∧ q.(curr_frame_idx) = p.(curr_frame_idx) ∧ q.(pbar_n) = p.(pbar_n)
  ∧ q.(start_counter) = p.(start_counter) ∧ q.(shown) = p.(shown)
  ∧ q.(paused) = p.(paused) ∧ q.(drawing) = p.(drawing)
  ∧ q.(command_queue) = p.(command_queue)
  ∧ q.(frame).(pixels) = p.(frame).(pixels).
Proof.
  unfold draw_annotations. intros H.
  destruct (get_last_anno p.(data)) as [a|] eqn:Ha; [|done].
  destruct (max_key p.(data)) as [k|] eqn:Hk; [|done].
  py_run. destruct a as [[|c pt]|]; try by simplify_eq.
  destruct k as [k|]; [|done].
  destruct (Z.abs _ <=? 5); [|by simplify_eq].
  simplify_eq. unfold draw_command, _draw_move_annotations,
    _finalize_annotation_chunk, draw_chunk.
  repeat (case_match; cbn); try done.
  all: split_and!; try done.
  all: generalize (seq 0 (length (p.(annotation_chunk) ++ [pt]) - 1)),
         (seq 0 (length p.(annotation_chunk) - 1)).
  all: intros l1 l2.
  all: try (generalize p.(frame); induction l1 as [|i l1 IH]; intros f;
            [done|]; cbn; rewrite IH; by repeat case_match).
  all: try (generalize p.(frame); induction l2 as [|i l2 IH]; intros f;
            [done|]; cbn; rewrite IH; by repeat case_match).
Qed.

Lemma acquire_frame_cases p q ct :
  acquire_frame p = Ok (q, ct) →
  q.(data) = p.(data) ∧ q.(pbar_n) = p.(pbar_n)
  ∧ q.(command_queue) = p.(command_queue)
  ∧ q.(paused) = p.(paused) ∧ q.(drawing) = p.(drawing)
  ∧ q.(start_counter) = p.(start_counter) ∧ q.(shown) = p.(shown)
  ∧ q.(last_frame_time) = Some ct
  ∧ ((p.(paused) = false
      ∧ cap_read p.(cap) = (Some q.(frame), q.(cap))
      ∧ q.(pause_frame) = Some q.(frame)
      ∧ q.(curr_frame_idx) = q.(cap).(pos_frames)
      ∧ ct = cap_get_pos_msec q.(cap))
     ∨ ((p.(paused) = true ∨ (cap_read p.(cap)).1 = None)
        ∧ q.(cap) = p.(cap)
        ∧ q.(pause_frame) = p.(pause_frame)
        ∧ q.(curr_frame_idx) = p.(curr_frame_idx)
        ∧ p.(last_frame_time) = Some ct
        ∧ q.(frame) = (if p.(paused)
                       then default p.(last_frame) p.(pause_frame)
                       else p.(last_frame)))).
Proof.
  unfold acquire_frame. intros H.
  destruct p.(paused) eqn:Hp; cbn in H.
  - py_run. destruct p.(pause_frame) as [f|] eqn:Hf; [|done].
    destruct p.(last_frame_time) as [t0|] eqn:Ht; [|done].
    simplify_eq. cbn. rewrite Hf, Ht.
    split_and!; try done. right. split_and!; try done. by left.
  - destruct (cap_read p.(cap)) as [[f|] c] eqn:Hr.
    + simplify_eq. cbn. split_and!; try done. left. by split_and!.
    + py_run. destruct p.(last_frame_time) as [t0|] eqn:Ht; [|done].
      simplify_eq. cbn. rewrite Ht. split_and!; try done.
      right. split_and!; try done.
      * by right.
      * unfold cap_read in Hr. repeat case_match; by simplify_eq.
Qed.

(** What a completed tick leaves behind, in terms of the state [q] reached
    after the command and the read. *)
Lemma tick_result now p p' :
  _process_video_frame now p = Ok p' →
  ∃ q ct q1 label stored,
    acquire_frame (_handle_commands p) = Ok (q, ct)
    ∧ (if q.(drawing) then draw_annotations q else Ok q) = Ok q1
    ∧ draw_timer q1.(frame) ct
      = Ok (cv2_putText q1.(frame) label
              (shape1 q1.(frame) - 75, shape0 q1.(frame) - 20), label)
    ∧ q.(pause_frame) = Some stored
    ∧ p'.(data)
      = add_curr_frame q.(curr_frame_idx) q.(pbar_n) stored label
                       (now - p.(start_counter))%float q.(data)
    ∧ p'.(pbar_n) = q.(pbar_n) + 1
    ∧ p'.(cap) = q.(cap)
    ∧ p'.(pause_frame) = q.(pause_frame)
    ∧ p'.(last_frame_time) = q.(last_frame_time)
    ∧ p'.(curr_frame_idx) = q.(curr_frame_idx)
    ∧ p'.(paused) = q.(paused) ∧ p'.(drawing) = q.(drawing)
    ∧ p'.(command_queue) = q.(command_queue)
    ∧ p'.(start_counter) = p.(start_counter)
    ∧ p'.(shown)
      = q.(shown)
        ++ [cv2_putText q1.(frame) label
              (shape1 q1.(frame) - 75, shape0 q1.(frame) - 20)].
Proof.
  unfold _process_video_frame. intros H.
  destruct (acquire_frame (_handle_commands p)) as [[q ct]|] eqn:Hacq;
    [|done].
  py_run.
  destruct (if q.(drawing) then draw_annotations q else Ok q)
    as [q1|] eqn:Hdraw; [|done].
  assert (q1.(data) = q.(data) ∧ q1.(cap) = q.(cap)
          ∧ q1.(pause_frame) = q.(pause_frame)
          ∧ q1.(last_frame_time) = q.(last_frame_time)
          ∧ q1.(curr_frame_idx) = q.(curr_frame_idx)
          ∧ q1.(pbar_n) = q.(pbar_n)
          ∧ q1.(start_counter) = q.(start_counter)
          ∧ q1.(shown) = q.(shown)
          ∧ q1.(paused) = q.(paused) ∧ q1.(drawing) = q.(drawing)
          ∧ q1.(command_queue) = q.(command_queue)
          ∧ q1.(frame).(pixels) = q.(frame).(pixels))
    as (Hd & Hc & Hpf & Hlt & Hci & Hpn & Hsc & Hsh & Hpa & Hdr & Hcq & _).
  { assert (draw_annotations q = Ok q1 ∨ q1 = q) as [Hx| ->]
      by (destruct q.(drawing); [left | right]; congruence).
    - by apply draw_annotations_overlay_only.
    - done. }
  unfold draw_timer in *. py_run.
  destruct (int_of_float ct) as [ms|] eqn:Hms; [|done].
  destruct (timedelta_str ms) as [label|] eqn:Hlabel; [|done].
  destruct q1.(pause_frame) as [stored|] eqn:Hstored; [|done].
  destruct (acquire_frame_cases _ _ _ Hacq)
    as (_ & _ & _ & _ & _ & Hsc' & _).
  simplify_eq. cbn.
  eexists q, ct, q1, label, stored.
  rewrite Hd, Hc, Hlt, Hci, Hpn, Hsh, Hpa, Hdr, Hcq, Hsc, Hsc',
    _handle_commands_start_counter, Hms, Hlabel, Hstored.
  by split_and!.
Qed.

Lemma add_curr_frame_untouched o i f s ts d :
  (add_curr_frame o i f s ts d).(curr_frame) = d.(curr_frame)
  ∧ (add_curr_frame o i f s ts d).(audio_data) = d.(audio_data).
Proof.
  unfold add_curr_frame. cbv zeta. repeat (case_match; cbn); done.
Qed.

Lemma add_annotation_frames command pt d :
  (add_annotation command pt d).(frames) = d.(frames)
  ∧ (add_annotation command pt d).(max_frames) = d.(max_frames).
Proof.
  unfold add_annotation. repeat (case_match; cbn); done.
Qed.

Lemma cap_read_inv c o c' :
  cap_read c = (o, c') →
  c'.(video) = c.(video) ∧ c'.(frame_count_prop) = c.(frame_count_prop)
  ∧ ∀ f, o = Some f → f ∈ c.(video).
Proof.
  unfold cap_read. intros H.
  repeat (case_match; simplify_eq; cbn); split_and!; try done.
  intros f' [= <-]. by eapply list_elem_of_lookup_2.
Qed.

Lemma cap_read_at (c : capture) (n : Z) (f : image) :
  c.(is_opened) = true →
  0 ≤ n →
  c.(video) !! Z.to_nat n = Some f →
  cap_read (cap_set_pos_frames n c)
  = (Some f, Capture c.(video) (n + 1) c.(frame_count_prop)
                     c.(pos_msec_at) true).
Proof.
  intros Ho Hn Hf. unfold cap_read, cap_set_pos_frames. cbn.
  assert ((0 <=? n) = true) as -> by (apply Z.leb_le; lia).
  by rewrite Ho, Hf.
Qed.

Lemma session_inv_handle_commands p :
  session_inv p → session_inv (_handle_commands p).
Proof.
  intros (Hl & Hn & Hmax & Hfc & Hfr & Hpf).
  unfold _handle_commands. destruct p.(command_queue) as [|[|n| |o] rest].
  - done.
  - done.
  - done.
  - unfold session_inv, restart. cbn. split_and!; try done.
    by apply lockstep_fresh.
  - done.
Qed.

Lemma session_inv_tick now p p' :
  session_inv p → _process_video_frame now p = Ok p' → session_inv p'.
Proof.
  intros Hp Htick. apply session_inv_handle_commands in Hp.
  destruct Hp as (Hl & Hn & Hmax & Hfc & Hfr & Hpf).
  destruct (tick_result _ _ _ Htick)
    as (q & ct & q1 & label & stored & Hacq & _ & _ & Hst & Hd & Hpn & Hc
        & Hpf' & _).
  destruct (acquire_frame_cases _ _ _ Hacq)
    as (Hqd & Hqn & _ & _ & _ & _ & _ & _ & Hcases).
  set (h := _handle_commands p) in *.
  assert (q.(cap).(video) = h.(cap).(video)
          ∧ q.(cap).(frame_count_prop) = h.(cap).(frame_count_prop)
          ∧ stored ∈ h.(cap).(video)) as (Hv & Hf & Hin).
  { destruct Hcases as [(_ & Hr & Hqpf & _)|(_ & Hqc & Hqpf & _)].
    - destruct (cap_read_inv _ _ _ Hr) as (? & ? & Hin).
      split_and!; try done. apply Hin. congruence.
    - rewrite Hqc. split_and!; try done. apply Hpf. congruence. }
  unfold session_inv. rewrite Hd, Hpn, Hc, Hpf', Hv, Hf, Hqd, Hqn.
  rewrite add_curr_frame_frames.
  assert ((add_curr_frame q.(curr_frame_idx) h.(pbar_n) stored label
             (now - p.(start_counter))%float h.(data)).(max_frames)
          = h.(data).(max_frames)
            + (if h.(pbar_n) =? h.(data).(max_frames) then 1 else 0))
    as ->.
  { unfold add_curr_frame.
    destruct (_ =? _); cbn; destruct (_ !! _); cbn; lia. }
  split_and!.
  - by apply lockstep_add_curr_frame.
  - unfold get_frames_length in *.
    rewrite add_curr_frame_frames, length_app. cbn. lia.
  - destruct (h.(pbar_n) =? h.(data).(max_frames)) eqn:He; [lia|].
    apply Z.eqb_neq in He. lia.
  - done.
  - apply Forall_app. split.
    + eapply Forall_impl; [exact Hfr|]. intros fr [? ?]. split; [|done].
      destruct (_ =? _); lia.
    + constructor; [|done]. cbn. split; [|done].
      destruct (h.(pbar_n) =? h.(data).(max_frames)) eqn:He; [lia|].
      apply Z.eqb_neq in He. lia.
  - intros f Hf'. destruct Hcases as [(_ & Hr & Hqpf & _)|(_ & _ & Hqpf & _)].
    + destruct (cap_read_inv _ _ _ Hr) as (_ & _ & Hin'). apply Hin'.
      congruence.
    + apply Hpf. congruence.
Qed.

Lemma session_inv_run_event p ev p' :
  session_inv p → run_event p ev = Ok p' → session_inv p'.
Proof.
  intros Hp Hev. destruct ev as [now|event x y|indata now|command]; cbn in Hev.
  - by eapply session_inv_tick.
  - simplify_eq. destruct Hp as (Hl & Hn & Hmax & Hfc & Hfr & Hpf).
    unfold mouse_callback.
    destruct event, p.(drawing); try done;
      unfold session_inv; cbn; unfold get_frames_length;
      rewrite !(proj1 (add_annotation_frames _ _ _)),
        !(proj2 (add_annotation_frames _ _ _));
      split_and!; try done; by apply lockstep_add_annotation.
  - by simplify_eq.
  - by simplify_eq.
Qed.

Lemma filter_Forall_id {A} (P : A → Prop) `{∀ x, Decision (P x)}
    (l : list A) :
  Forall P l → filter P l = l.
Proof.
  induction 1 as [|x l Hx Hl IH]; [done|].
  by rewrite filter_cons, decide_True, IH.
Qed.

(** X13.  Invariant of a capture session.  From a state in which the
    store is in lockstep, the progress counter equals the number of
    stored frames and does not exceed [max_frames], and the decoder
    reports a non-negative frame count (the state at start-up), after any
    sequence of ticks, pointer events, audio callbacks and queued
    commands (pauses, seeks and restarts included) that runs through: the
    keys of [self.annotations] are still exactly the logical frame
    indices, every stored frame is a frame of the decoder, unchanged (no
    stroke and no label on it), and every stored decoder index is below
    [max_frames], so that [process_video_data] drops no frame. *)
Theorem capture_session_invariant
    (p0 p : t) (evs : list session_event) :
  session_inv p0 →
  run_session p0 evs = Ok p →
  lockstep p.(data)
  ∧ Forall (λ fr : float * Z * image, fr.2 ∈ p.(cap).(video))
           p.(data).(frames)
  ∧ kept_frames p.(data)
    = (λ fr : float * Z * image, fr.2) <$> p.(data).(frames).
Proof.
  intros Hp0 Hrun.
  assert (session_inv p) as (Hl & _ & _ & _ & Hfr & _).
  { revert p0 Hp0 Hrun. induction evs as [|ev evs IH]; intros p0 Hp0 Hrun.
    - cbn in Hrun. by simplify_eq.
    - cbn in Hrun. destruct (run_event p0 ev) as [p1|] eqn:Hev; [|done].
      py_run. eapply IH; [|exact Hrun].
      by eapply session_inv_run_event. }
  split_and!; [done | | ].
  - eapply Forall_impl; [exact Hfr|]. by intros fr [? ?].
  - unfold kept_frames. rewrite filter_Forall_id; [done|].
    eapply Forall_impl; [exact Hfr|]. by intros fr [? ?].
Qed.

Lemma capture_session_invariant_witness :
  ∃ p, run_session Examples.fresh_player Examples.short_session = Ok p
       ∧ lockstep p.(data)
       ∧ Forall (λ fr : float * Z * image, fr.2 ∈ p.(cap).(video))
                p.(data).(frames)
       ∧ kept_frames p.(data)
         = (λ fr : float * Z * image, fr.2) <$> p.(data).(frames).
Proof.
  assert (∃ p, run_session Examples.fresh_player Examples.short_session
               = Ok p) as [p Hrun]
    by (vm_compute; eexists; reflexivity).
  exists p. split; [exact Hrun|].
  apply (capture_session_invariant Examples.fresh_player p
           Examples.short_session); [|exact Hrun].
  unfold session_inv. split_and!.
  - by apply lockstep_fresh.
  - reflexivity.
  - cbn. lia.
  - cbn. lia.
  - constructor.
  - intros f [=].
Defined.

(** X14.  A tick while paused, or once the decoder has no frame left,
    with no command pending: the decoder cursor and the cached frame stay
    as they are and the label is the rendering of the cached presentation
    time, so picture and timer freeze; but the tick still appends one
    frame (the cached one) and one entry to the store. *)
Theorem frozen_tick (now : float) (p p' : t) :
  p.(command_queue) = [] →
  p.(paused) = true ∨ (cap_read p.(cap)).1 = None →
  _process_video_frame now p = Ok p' →
  p'.(cap) = p.(cap)
  ∧ p'.(curr_frame_idx) = p.(curr_frame_idx)
  ∧ p'.(pause_frame) = p.(pause_frame)
  ∧ ∃ stored ct ms label,
      p.(pause_frame) = Some stored
      ∧ p.(last_frame_time) = Some ct
      ∧ int_of_float ct = Ok ms
      ∧ timedelta_str ms = Ok label
      ∧ p'.(data).(frames)
        = p.(data).(frames)
          ++ [((now - p.(start_counter))%float, p.(pbar_n), stored)]
      ∧ last_label p'.(data) = Some label.
Proof.
  intros Hq Hfrozen Htick.
  destruct (tick_result _ _ _ Htick)
    as (q & ct & q1 & label & stored & Hacq & _ & Htimer & Hst & Hd & _
        & Hc & Hpf & _ & Hci & _).
  assert (_handle_commands p = p) as Hh
    by (unfold _handle_commands; by rewrite Hq).
  rewrite Hh in Hacq.
  destruct (acquire_frame_cases _ _ _ Hacq)
    as (Hqd & Hqn & _ & _ & _ & _ & _ & _ & Hcases).
  destruct Hcases as [(Hnp & Hr & _)|(_ & Hqc & Hqpf & Hqci & Hlt & _)].
  { destruct Hfrozen as [Hp|Hnone]; [congruence|].
    rewrite Hr in Hnone. done. }
  rewrite Hc, Hci, Hpf, Hqc, Hqci, Hqpf. split_and!; try done.
  unfold draw_timer in Htimer. py_run.
  destruct (int_of_float ct) as [ms|] eqn:Hms; [|done].
  destruct (timedelta_str ms) as [label'|] eqn:Hlabel; [|done].
  simplify_eq. exists stored, ct, ms, label.
  rewrite Hd, add_curr_frame_frames, Hqd, Hqn. split_and!; try done.
  - congruence.
  - unfold last_label. by rewrite last_entry_add_curr_frame.
Qed.

Lemma frozen_tick_witness :
  ∃ p', _process_video_frame 5%float Examples.paused_player = Ok p'
        ∧ p'.(cap) = Examples.paused_player.(cap)
        ∧ length p'.(data).(frames) = 2%nat
        ∧ last_label p'.(data) = Some "0:00:00"%string.
Proof.
  assert (∃ p', _process_video_frame 5%float Examples.paused_player
                = Ok p') as [p' Htick]
    by (vm_compute; eexists; reflexivity).
  exists p'. split; [exact Htick|].
  destruct (frozen_tick 5%float Examples.paused_player p' eq_refl
              (or_introl eq_refl) Htick)
    as (Hc & _ & _ & stored & ct & ms & label & _ & Hct & Hms & Hlabel
        & Hfr & Hlast).
  split; [exact Hc|]. split; [by rewrite Hfr|].
  rewrite Hlast. cbn in Hct. simplify_eq.
  vm_compute in Hms. simplify_eq. vm_compute in Hlabel. by simplify_eq.
Defined.

(** X15.  A seek served by a tick: with [('seek', n)] first in the queue,
    the player not paused and frame [n] in the file, the tick that
    completes stores frame [n] of the file as the next logical frame,
    leaves the decoder at [n + 1] and sets the store's [curr_frame] to
    [n]; the frames captured before are all kept. *)
Theorem seek_then_tick
    (now : float) (p p' : t) (n : Z) (rest : list command) (f : image) :
  p.(command_queue) = CmdSeek n :: rest →
  p.(paused) = false →
  p.(cap).(is_opened) = true →
  0 ≤ n →
  p.(cap).(video) !! Z.to_nat n = Some f →
  _process_video_frame now p = Ok p' →
  p'.(data).(frames)
  = p.(data).(frames)
    ++ [((now - p.(start_counter))%float, p.(pbar_n), f)]
  ∧ p'.(cap).(pos_frames) = n + 1
  ∧ p'.(curr_frame_idx) = n + 1
  ∧ p'.(data).(curr_frame) = n
  ∧ p'.(command_queue) = rest.
Proof.
  intros Hq Hp Hopen Hn Hf Htick.
  destruct (tick_result _ _ _ Htick)
    as (q & ct & q1 & label & stored & Hacq & _ & _ & Hst & Hd & _
        & Hc & _ & _ & Hci & _ & _ & Hcq & _).
  assert (_handle_commands p = seek n (set_command_queue rest p)) as Hh
    by (unfold _handle_commands; by rewrite Hq).
  rewrite Hh in Hacq. clear Hh.
  set (h := seek n (set_command_queue rest p)) in *.
  destruct (acquire_frame_cases _ _ _ Hacq)
    as (Hqd & Hqn & Hqq & _ & _ & _ & _ & _ & Hcases).
  assert (cap_read h.(cap)
          = (Some f, Capture p.(cap).(video) (n + 1)
                             p.(cap).(frame_count_prop)
                             p.(cap).(pos_msec_at) true)) as Hread.
  { change (cap h) with (cap_set_pos_frames n (cap p)).
    apply cap_read_at; [exact Hopen | exact Hn | exact Hf]. }
  destruct Hcases as [(_ & Hr & Hqpf & Hqci & _)|([Hpa|Hnone] & _)].
  - rewrite Hread in Hr. injection Hr as Hfr Hcap.
    rewrite <-Hfr in Hqpf. rewrite Hqpf in Hst. injection Hst as <-.
    rewrite Hd, Hc, Hci, Hcq, Hqci, Hqd, Hqn, Hqq, <-Hcap,
      add_curr_frame_frames.
    split_and!; try done.
    by rewrite (proj1 (add_curr_frame_untouched _ _ _ _ _ _)).
  - change (paused h) with (paused p) in Hpa. congruence.
  - by rewrite Hread in Hnone.
Qed.

Lemma seek_then_tick_witness :
  ∃ p', _process_video_frame 1%float Examples.seeking_player = Ok p'
        ∧ p'.(data).(frames) = [(1%float, 0, Image [[2]] [])]
        ∧ p'.(cap).(pos_frames) = 3
        ∧ p'.(curr_frame_idx) = 3
        ∧ p'.(data).(curr_frame) = 2
        ∧ p'.(command_queue) = [].
Proof.
  assert (∃ p', _process_video_frame 1%float Examples.seeking_player
                = Ok p') as [p' Htick]
    by (vm_compute; eexists; reflexivity).
  exists p'. split; [exact Htick|].
  apply (seek_then_tick 1%float Examples.seeking_player p' 2 []
           (Image [[2]] [])); try reflexivity; [lia | exact Htick].
Defined.

(** X16.  A restart served by a tick: with ['restart'] first in the
    queue and a first frame in the file, the tick that completes leaves a
    store holding that first frame alone, at logical index 0 with decoder
    index 0, no audio, an empty queue, and the player neither paused nor
    drawing, whatever had been captured or queued before. *)
Theorem restart_then_tick
    (now : float) (p p' : t) (rest : list command) (f : image) :
  p.(command_queue) = CmdRestart :: rest →
  p.(cap).(is_opened) = true →
  p.(cap).(video) !! 0%nat = Some f →
  _process_video_frame now p = Ok p' →
  p'.(data).(frames) = [((now - p.(start_counter))%float, 0, f)]
  ∧ p'.(data).(audio_data) = []
  ∧ (∃ label, p'.(data).(annotations)
              = {[ 0 := Entry 0 1 label AnnoEmpty
                               (now - p.(start_counter))%float ]})
  ∧ p'.(command_queue) = []
  ∧ p'.(paused) = false ∧ p'.(drawing) = false
  ∧ p'.(pbar_n) = 1.
Proof.
  intros Hq Hopen Hf Htick.
  destruct (tick_result _ _ _ Htick)
    as (q & ct & q1 & label & stored & Hacq & _ & _ & Hst & Hd & Hpn
        & _ & _ & _ & _ & Hpa & Hdr & Hcq & _).
  assert (_handle_commands p = restart (set_command_queue rest p)) as Hh
    by (unfold _handle_commands; by rewrite Hq).
  rewrite Hh in Hacq. clear Hh.
  set (h := restart (set_command_queue rest p)) in *.
  destruct (acquire_frame_cases _ _ _ Hacq)
    as (Hqd & Hqn & Hqq & Hqpa & Hqdr & _ & _ & _ & Hcases).
  assert (cap_read h.(cap)
          = (Some f, Capture p.(cap).(video) (0 + 1)
                             p.(cap).(frame_count_prop)
                             p.(cap).(pos_msec_at) true)) as Hread.
  { change (cap h) with (cap_set_pos_frames 0 (cap p)).
    apply cap_read_at; [exact Hopen | lia | exact Hf]. }
  destruct Hcases as [(_ & Hr & Hqpf & Hqci & _)|([Hpa'|Hnone] & _)].
  - rewrite Hread in Hr. injection Hr as Hfr Hcap.
    rewrite <-Hfr in Hqpf. rewrite Hqpf in Hst. injection Hst as <-.
    rewrite Hd, Hpn, Hpa, Hdr, Hcq, Hqci, Hqd, Hqn, Hqq, Hqpa, Hqdr,
      <-Hcap, add_curr_frame_frames, add_curr_frame_annotations.
    change (command_queue h) with (drain rest). rewrite drain_nil.
    split_and!; try done.
    + by rewrite (proj2 (add_curr_frame_untouched _ _ _ _ _ _)).
    + exists label. change (annotations (data h)) with (∅ : gmap Z entry).
      change (get_frames_length (data h)) with 0.
      by rewrite lookup_empty, insert_empty.
  - change (paused h) with false in Hpa'. done.
  - by rewrite Hread in Hnone.
Qed.

Lemma restart_then_tick_witness :
  ∃ p', _process_video_frame 9%float Examples.restarting_player = Ok p'
        ∧ p'.(data).(frames) = [(9%float, 0, Examples.blank)]
        ∧ p'.(command_queue) = []
        ∧ p'.(paused) = false ∧ p'.(drawing) = false.
Proof.
  assert (∃ p', _process_video_frame 9%float Examples.restarting_player
                = Ok p') as [p' Htick]
    by (vm_compute; eexists; reflexivity).
  exists p'. split; [exact Htick|].
  destruct (restart_then_tick 9%float Examples.restarting_player p'
              [CmdPause] Examples.blank eq_refl eq_refl eq_refl Htick)
    as (Hfr & _ & _ & Hcq & Hpa & Hdr & _).
  by split_and!.
Defined.

Lemma mouse_add_annotation_last command pt p e :
  lockstep p.(data) →
  p.(data).(frames) ≠ [] →
  last_entry p.(data) = Some e →
  let d' := add_annotation command pt p.(data) in
  lockstep d' ∧ d'.(frames) = p.(data).(frames)
  ∧ last_entry d'
    = Some (Entry e.(idx) e.(org_idx) e.(time_str)
              (AnnoCmd (if is_start e.(anno) then "start" else command) pt)
              e.(timestamp)).
Proof.
  intros Hl Hne He d'. split; [by apply lockstep_add_annotation|].
  split; [apply add_annotation_frames|].
  unfold d'. rewrite (add_annotation_eq _ _ _ e) by done.
  unfold last_entry. cbn.
  replace (get_frames_length (set_annotations _ p.(data)))
    with (get_frames_length p.(data)) by done.
  by rewrite lookup_insert_eq.
Qed.

(** X17.  A stroke made between two ticks: when the button is pressed,
    the pointer moved and the button released while the same frame is the
    newest one, the entry of that frame ends up holding
    [["start", [x2, y2]]], a start at the release point; neither the move
    nor the end is recorded, and the player is no longer drawing. *)
Theorem stroke_within_one_frame (p : t) (x0 y0 x1 y1 x2 y2 : Z) :
  p.(drawing) = false →
  lockstep p.(data) →
  p.(data).(frames) ≠ [] →
  let q := mouse_callback EVENT_LBUTTONUP x2 y2
             (mouse_callback EVENT_MOUSEMOVE x1 y1
                (mouse_callback EVENT_LBUTTONDOWN x0 y0 p)) in
  q.(drawing) = false
  ∧ q.(data).(frames) = p.(data).(frames)
  ∧ get_last_anno q.(data) = Ok (Some (AnnoCmd "start" (x2, y2))).
Proof.
  intros Hd Hl Hne q.
  assert (is_Some (last_entry p.(data))) as [e He].
  { destruct Hl as [_ Hdom]. apply Hdom. unfold get_frames_length.
    destruct p.(data).(frames); [done | cbn; lia]. }
  unfold q, mouse_callback. rewrite Hd. cbn.
  set (p1 := set_data (add_annotation "start" (x0, y0) p.(data)) p).
  destruct (mouse_add_annotation_last "start" (x0, y0) p e Hl Hne He)
    as (Hl1 & Hf1 & He1).
  assert ((if is_start e.(anno) then "start" else "start") = "start")
    as Hs1 by by destruct (is_start e.(anno)).
  rewrite Hs1 in He1.
  set (d1 := add_annotation "start" (x0, y0) p.(data)) in *.
  assert (d1.(frames) ≠ []) as Hne1 by by rewrite Hf1.
  pose (p1' := set_data d1 p).
  destruct (mouse_add_annotation_last "move" (x1, y1) p1' _ Hl1 Hne1 He1)
    as (Hl2 & Hf2 & He2).
  cbn in He2, Hl2, Hf2.
  set (d2 := add_annotation "move" (x1, y1) d1) in *.
  assert (d2.(frames) ≠ []) as Hne2 by by rewrite Hf2.
  pose (p2' := set_data d2 p).
  destruct (mouse_add_annotation_last "end" (x2, y2) p2' _ Hl2 Hne2 He2)
    as (Hl3 & Hf3 & He3).
  cbn in He3, Hl3, Hf3.
  split_and!; [done | by rewrite Hf3, Hf2, Hf1 |].
  rewrite get_last_anno_lockstep by done. by rewrite He3.
Qed.

Lemma stroke_within_one_frame_witness :
  get_last_anno
    (mouse_callback EVENT_LBUTTONUP 5 6
       (mouse_callback EVENT_MOUSEMOVE 3 4
          (mouse_callback EVENT_LBUTTONDOWN 1 2
             Examples.paused_player))).(data)
  = Ok (Some (AnnoCmd "start" (5, 6))).
Proof.
  apply (stroke_within_one_frame Examples.paused_player 1 2 3 4 5 6).
  - reflexivity.
  - apply lockstep_add_curr_frame. by apply lockstep_fresh.
  - discriminate.
Defined.

Lemma timedelta_str_floor (ms : Z) :
  timedelta_str ms = timedelta_str (1000 * (ms `div` 1000)).
Proof.
  unfold timedelta_str.
  assert ((1000 * (ms `div` 1000)) `div` 86400000 = ms `div` 86400000)
    as ->.
  { change 86400000 with (1000 * 86400).
    rewrite <-!Z.div_div by lia.
    by rewrite (Z.mul_comm 1000), Z.div_mul by lia. }
  assert (((1000 * (ms `div` 1000)) `mod` 86400000) `div` 1000
          = (ms `mod` 86400000) `div` 1000) as ->; [|done].
  change 86400000 with (1000 * 86400).
  rewrite !Z.rem_mul_r by lia.
  rewrite (Z.mul_comm 1000 (ms `div` 1000)), Z.mod_mul by lia.
  rewrite Z.div_mul by lia.
  rewrite Z.add_0_l, (Z.mul_comm 1000), Z.div_mul by lia.
  rewrite Z.div_add by lia.
  rewrite (Z.div_small (ms `mod` 1000)) by (apply Z.mod_pos_bound; lia).
  lia.
Qed.

(** X18.  The elapsed-time label has a resolution of one second:
    [draw_timer] puts the same label on the frame, and returns the same
    string, for any two presentation times whose integer parts fall in
    the same whole second. *)
Theorem draw_timer_whole_seconds
    (frame : image) (a b : float) (ms_a ms_b : Z) :
  int_of_float a = Ok ms_a →
  int_of_float b = Ok ms_b →
  ms_a `div` 1000 = ms_b `div` 1000 →
  draw_timer frame a = draw_timer frame b.
Proof.
  intros Ha Hb Hsec. unfold draw_timer. rewrite Ha, Hb. py_run.
  by rewrite (timedelta_str_floor ms_a), (timedelta_str_floor ms_b), Hsec.
Qed.

Lemma draw_timer_whole_seconds_witness :
  draw_timer Examples.blank 1200%float
  = draw_timer Examples.blank 1900.5%float.
Proof.
  apply (draw_timer_whole_seconds Examples.blank 1200%float 1900.5%float
           1200 1900); by vm_compute.
Defined.

End CaptureLoopMore.

(* ===================================================================== *)
(** * Further properties of the playback *)
(* ===================================================================== *)

Section PlaybackMore.
Import Py Data Session Save AnnotatedPlayer.

Lemma draw_chunk_cons a b rest f :
  draw_chunk (a :: b :: rest) f = draw_chunk (b :: rest) (cv2_line f a b).
Proof.
  unfold draw_chunk. cbn [length]. rewrite !Nat.sub_succ, !Nat.sub_0_r.
  cbn [seq foldl]. rewrite <-fmap_S_seq, foldl_fmap. done.
Qed.

Lemma draw_chunk_overlaid (chunk : list point) (f : image) :
  draw_chunk chunk f = overlaid f (segments chunk).
Proof.
  revert f; induction chunk as [|a chunk IH]; intros f;
    [unfold overlaid, segments; cbn; rewrite app_nil_r; by destruct f|].
  destruct chunk as [|b rest];
    [unfold overlaid, segments; cbn; rewrite app_nil_r; by destruct f|].
  rewrite draw_chunk_cons, IH; unfold overlaid, segments, cv2_line;
    cbn; by rewrite <-app_assoc.
Qed.

(** X19.  The path drawing loop draws, in order, exactly the segments
    joining consecutive points of the chunk (none for a chunk of fewer
    than two points) and leaves the pixels alone; the loop is the same in
    the capture player and in the playback. *)
Theorem draw_chunk_segments (chunk : list point) (f : image) :
  draw_chunk chunk f = overlaid f (segments chunk)
  ∧ VideoPlayer.draw_chunk chunk f = overlaid f (segments chunk).
Proof.
  split; [|change (VideoPlayer.draw_chunk chunk f) with (draw_chunk chunk f)];
    apply draw_chunk_overlaid.
Qed.

Lemma replay_moves_long frame c m lp ps :
  replay ((λ pt, ("move"%string, pt)) <$> ps) frame (Mk true c m lp)
  = imap (λ i _, draw_chunk (c ++ take (S i) ps) frame) ps.
Proof.
  revert c lp. induction ps as [|pt ps IH]; intros c lp; [done|].
  cbn [fmap list_fmap replay imap].
  unfold _draw_annotations, _draw_move_annotations. cbn.
  rewrite IH. f_equal. apply imap_ext. intros i x _. cbn.
  by rewrite <-app_assoc.
Qed.

Lemma replay_moves_short frame prev m lp ps :
  replay ((λ pt, ("move"%string, pt)) <$> ps) frame (Mk false [prev] m lp)
  = imap (λ i pt, cv2_line frame (default prev ((prev :: ps) !! i)) pt) ps.
Proof.
  revert prev lp. induction ps as [|pt ps IH]; intros prev lp; [done|].
  cbn [fmap list_fmap replay imap].
  unfold _draw_annotations, _draw_move_annotations. cbn.
  rewrite IH. f_equal. apply imap_ext. intros i x Hi. cbn.
  destruct i as [|i]; [done|]. cbn.
  assert (∀ o : option point, is_Some o → default pt o = default prev o)
    as Hdef by (by intros ? [? ->]).
  f_equal. apply Hdef. apply lookup_lt_is_Some. apply lookup_lt_Some in Hi.
  by apply Nat.lt_succ_l.
Qed.

(** X20.  Playback of a stroke made of a start and moves, one command per
    displayed frame: the start draws nothing; under the long policy the
    frame of the [i]-th move shows the whole path from the start point to
    that move; under the short policy it shows only the segment from the
    previous point to that move. *)
Theorem replay_stroke_policies
    (P0 : point) (ps : list point) (frame : image) (p : AnnotatedPlayer.t) :
  replay (start_and_moves P0 ps) frame p
  = frame
    :: imap (λ i pt,
               if p.(long_annotations)
               then overlaid frame (segments (P0 :: take (S i) ps))
               else overlaid frame
                      [Line (default P0 ((P0 :: ps) !! i)) pt])
            ps.
Proof.
  unfold start_and_moves. cbn [replay].
  unfold _draw_annotations at 1. cbn. f_equal.
  destruct p.(long_annotations).
  - rewrite replay_moves_long. apply imap_ext. intros i x _. cbn.
    apply draw_chunk_overlaid.
  - apply replay_moves_short.
Qed.

Local Arguments draw_chunk : simpl never.

Lemma draw_chunk_pixels chunk f :
  (draw_chunk chunk f).(pixels) = f.(pixels).
Proof. by rewrite draw_chunk_overlaid. Qed.

Lemma _process_frame_pixels f n p q f' :
  _process_frame f n p = Ok (q, f') →
  f'.(pixels) = f.(pixels) ∧ q.(meta) = p.(meta).
Proof.
  intros H. split; [|by eapply _process_frame_meta].
  unfold _process_frame, _draw_annotations, _draw_move_annotations,
    _finalize_annotation_chunk, _draw_time in H.
  repeat (case_match; cbn in *; simplify_eq);
    cbn; rewrite ?draw_chunk_pixels; done.
Qed.

Lemma show_loop_saved_timeline d quit unread read p :
  p.(meta) = json_of_annotations d →
  ∃ q shown_frames,
    show_loop quit unread read p = Ok (q, shown_frames)
    ∧ q.(meta) = p.(meta)
    ∧ pixels <$> shown_frames
      = pixels <$> take (length shown_frames) unread
    ∧ (length shown_frames ≤ length unread)%nat
    ∧ ((∀ k, quit k = false) → length shown_frames = length unread).
Proof.
  revert read p. induction unread as [|f unread IH]; intros read p Hm.
  - exists p, []. by split_and!.
  - cbn [show_loop].
    destruct (_process_frame f (Z.of_nat (S read)) p) as [[q f']|e] eqn:Hq.
    + destruct (_process_frame_pixels _ _ _ _ _ Hq) as [Hpx Hqm].
      py_run. destruct (quit read) eqn:Hquit.
      * exists q, [f']. split_and!; try done.
        -- cbn. by rewrite Hpx.
        -- cbn. lia.
        -- intros Hno. by rewrite Hno in Hquit.
      * destruct (IH (S read) q) as (q' & fs & Hrun & Hqm' & Hpxs & Hle & Hall);
          [by rewrite Hqm|].
        rewrite Hrun. exists q', (f' :: fs). split_and!; try done.
        -- by rewrite Hqm'.
        -- cbn. by rewrite Hpx, Hpxs.
        -- cbn. lia.
        -- intros Hno. cbn. by rewrite Hall.
    + exfalso. unfold _process_frame in Hq.
      rewrite Hm, json_round_trip_lookup in Hq.
      destruct (d.(annotations) !! Z.of_nat (S read)) as [e'|]; cbn in Hq;
        repeat case_match; by simplify_eq.
Qed.

(** X21.  Playing back a timeline written by [save_annotations] never
    raises, whatever store it was written from: [show] displays the
    decoded frames in order, with their pixels unchanged, up to the frame
    on which [q] is pressed, and all of them when [q] is never
    pressed. *)
Theorem show_saved_timeline
    (d : Data.t) (quit : nat → bool) (watch_file : list image)
    (p : AnnotatedPlayer.t) :
  p.(meta) = json_of_annotations d →
  ∃ q shown_frames,
    show quit watch_file p = Ok (q, shown_frames)
    ∧ pixels <$> shown_frames
      = pixels <$> take (length shown_frames) watch_file
    ∧ (length shown_frames ≤ length watch_file)%nat
    ∧ ((∀ k, quit k = false) → length shown_frames = length watch_file).
Proof.
  intros Hm.
  destruct (show_loop_saved_timeline d quit watch_file 0 p Hm)
    as (q & fs & Hrun & _ & Hpx & Hle & Hall).
  exists q, fs. by split_and!.
Qed.

Lemma show_saved_timeline_witness :
  ∃ q shown_frames,
    show (λ _, false) [Examples.blank; Examples.blank]
         (Mk false [] (json_of_annotations Examples.stroke_store) None)
    = Ok (q, shown_frames)
    ∧ pixels <$> shown_frames
      = pixels <$> take (length shown_frames)
                        [Examples.blank; Examples.blank]
    ∧ (length shown_frames ≤ 2)%nat
    ∧ ((∀ k : nat, (λ _, false) k = false) → length shown_frames = 2%nat).
Proof.
  apply (show_saved_timeline Examples.stroke_store (λ _, false)
           [Examples.blank; Examples.blank]
           (Mk false [] (json_of_annotations Examples.stroke_store) None)).
  reflexivity.
Defined.

Lemma show_loop_replays quit unread read p q shown_frames :
  show_loop quit unread read p = Ok (q, shown_frames) →
  ∀ (k : nat) f f',
    unread !! k = Some f → shown_frames !! k = Some f' →
    match p.(meta) !! pretty (Z.of_nat (S (read + k))) with
    | Some (VEntry e) =>
        e.(time_str) ≠ ""%string →
        last f'.(drawn)
        = Some (Text e.(time_str) (shape1 f - 75, shape0 f - 20))
    | _ => f' = f
    end.
Proof.
  revert read p q shown_frames.
  induction unread as [|f0 unread IH]; intros read p q fs Hrun k f f' Hk Hk'.
  - done.
  - cbn [show_loop] in Hrun.
    destruct (_process_frame f0 (Z.of_nat (S read)) p) as [[q0 f0']|e] eqn:Hq;
      [|done].
    py_run.
    assert (∃ rest, fs = f0' :: rest
                    ∧ (quit read = false →
                       ∃ q', show_loop quit unread (S read) q0 = Ok (q', rest)))
      as (rest & -> & Hrest).
    { destruct (quit read).
      - simplify_eq. by exists [].
      - destruct (show_loop quit unread (S read) q0) as [[q' rest]|] eqn:Hr;
          [|done].
        simplify_eq. exists rest. eauto. }
    destruct k as [|k].
    + cbn in Hk, Hk'. simplify_eq. rewrite Nat.add_0_r.
      unfold _process_frame in Hq.
      destruct (p.(meta) !! pretty (Z.of_nat (S read))) as [[e|md]|];
        [|done|by simplify_eq].
      assert (∃ p1 f1, (match e.(anno) with
                        | AnnoCmd command pt =>
                            _draw_annotations f command pt p
                        | AnnoEmpty => (p, f)
                        end) = (p1, f1) ∧ f1.(pixels) = f.(pixels))
        as (p1 & f1 & Hdraw & Hpx).
      { destruct e.(anno) as [|c pt]; [by eexists _, _|].
        unfold _draw_annotations, _draw_move_annotations,
          _finalize_annotation_chunk.
        repeat (case_match; cbn in *; simplify_eq);
          eexists _, _; (split; [reflexivity|]);
          cbn; rewrite ?draw_chunk_pixels; done. }
      rewrite Hdraw in Hq. intros Hne.
      apply String.eqb_neq in Hne. rewrite Hne in Hq. simplify_eq.
      unfold _draw_time, cv2_putText, shape1, shape0. cbn.
      rewrite Hpx. apply last_snoc.
    + cbn in Hk, Hk'.
      destruct (quit read) eqn:Hquit.
      * by simplify_eq.
      * destruct (Hrest eq_refl) as [q' Hrun'].
        specialize (IH _ _ _ _ Hrun' k f f' Hk Hk').
        rewrite (proj2 (_process_frame_pixels _ _ _ _ _ Hq)) in IH.
        by replace (S (read + S k)) with (S (S read + k)) by lia.
Qed.

(** X22.  Which entry the playback draws on which frame: the [k]-th
    decoded frame (from 0) is looked up under the key [str(k + 1)]; when
    the timeline has an entry there, with a non-empty label, the last
    thing drawn on the displayed frame is that label, at 75 pixels from
    the right edge and 20 from the bottom; when it has none, the frame is
    displayed as decoded. *)
Theorem show_replays_next_index
    (quit : nat → bool) (watch_file : list image)
    (p q : AnnotatedPlayer.t) (shown_frames : list image)
    (k : nat) (f f' : image) :
  show quit watch_file p = Ok (q, shown_frames) →
  watch_file !! k = Some f →
  shown_frames !! k = Some f' →
  match p.(meta) !! pretty (Z.of_nat (S k)) with
  | Some (VEntry e) =>
      e.(time_str) ≠ ""%string →
      last f'.(drawn)
      = Some (Text e.(time_str) (shape1 f - 75, shape0 f - 20))
  | _ => f' = f
  end.
Proof.
  intros Hrun Hk Hk'.
  apply (show_loop_replays quit watch_file 0 p q shown_frames Hrun k f f'
           Hk Hk').
Qed.

Lemma show_replays_next_index_witness :
  ∃ q shown_frames f',
    show (λ _, false) [Examples.blank; Examples.blank]
         (Mk false [] (json_of_annotations Examples.stroke_store) None)
    = Ok (q, shown_frames)
    ∧ shown_frames !! 0%nat = Some f'
    ∧ last f'.(drawn)
      = Some (Text "0:00:01" (shape1 Examples.blank - 75,
                              shape0 Examples.blank - 20)).
Proof.
  assert (∃ q shown_frames f',
            show (λ _, false) [Examples.blank; Examples.blank]
                 (Mk false [] (json_of_annotations Examples.stroke_store)
                     None)
            = Ok (q, shown_frames)
            ∧ shown_frames !! 0%nat = Some f')
    as (q & shown_frames & f' & Hrun & Hk')
    by (vm_compute; eexists _, _, _; split; reflexivity).
  exists q, shown_frames, f'. split; [exact Hrun|]. split; [exact Hk'|].
  pose proof (show_replays_next_index _ _ _ _ _ 0 Examples.blank f'
                Hrun eq_refl Hk') as H.
  vm_compute in H. vm_compute. apply H. discriminate.
Defined.

End PlaybackMore.

(* ===================================================================== *)
(** * From the recorder to the viewer *)
(* ===================================================================== *)

Section SavedFiles.
Import Py Data Session Save AnnotatedPlayer Anno.

Lemma prefix_get old s :
  String.prefix old s = true →
  ∀ n c, String.get n old = Some c → String.get n s = Some c.
Proof.
  revert s. induction old as [|a old IH]; intros s Hp n c Hn; [by destruct n|].
  destruct s as [|b s]; [done|]. cbn in Hp.
  destruct (ascii_dec a b) as [->|]; [|done].
  destruct n as [|n]; [done|]. cbn in *. by apply IH.
Qed.

Lemma get_dotless_app (a b : string) (n k : nat) :
  has_dot a = false →
  (∀ m, (m < k)%nat → String.get m b ≠ Some "."%char) →
  (n < String.length a + k)%nat →
  String.get n (a +:+ b) ≠ Some "."%char.
Proof.
  revert n. induction a as [|c a IH]; intros n Ha Hb Hn.
  - cbn in *. by apply Hb.
  - cbn in Ha. apply orb_false_iff in Ha as [Hc Ha].
    destruct n as [|n]; cbn.
    + intros [= ->]. done.
    + apply IH; [done | done | cbn in Hn; lia].
Qed.

(** No occurrence of [old] starts inside a part of the string that has no
    dot, when [old] has a dot the rest of the string cannot supply. *)
Lemma replace_go_dotless (old new stem tail : string) (k : nat) :
  has_dot stem = false →
  String.get k old = Some "."%char →
  (∀ m, (m < k)%nat → String.get m tail ≠ Some "."%char) →
  replace_go old new 0 (stem +:+ tail)
  = stem +:+ replace_go old new 0 tail.
Proof.
  intros Hs Hk Ht. induction stem as [|c stem IH]; [done|].
  change (String c stem +:+ tail) with (String c (stem +:+ tail)).
  change (String c stem +:+ replace_go old new 0 tail)
    with (String c (stem +:+ replace_go old new 0 tail)).
  cbn [replace_go].
  destruct (String.prefix old (String c (stem +:+ tail))) eqn:Hp.
  - exfalso. apply (prefix_get _ _ Hp) in Hk.
    apply (get_dotless_app (String c stem) tail k k Hs Ht); [cbn; lia|].
    exact Hk.
  - f_equal. apply IH. cbn in Hs. by apply orb_false_iff in Hs as [_ ?].
Qed.

Lemma replace_extension (new stem : string) :
  has_dot stem = false →
  str_replace ".mp4" new (stem +:+ ".mp4") = stem +:+ new.
Proof.
  intros Hs. unfold str_replace.
  rewrite (replace_go_dotless _ _ _ _ 0 Hs); [|done|intros m Hm; lia].
  f_equal. cbn. induction new as [|c new IH]; [done|].
  change (String c new +:+ "") with (String c (new +:+ "")). by rewrite IH.
Qed.

Lemma meta_file_of_merged (stem : string) :
  has_dot stem = false →
  meta_file (stem +:+ "_annotated.mp4") = stem +:+ "_annotated.json".
Proof.
  intros Hs. unfold meta_file, str_replace.
  rewrite (replace_go_dotless _ _ _ _ 10 Hs); [done|done|].
  intros m Hm. do 10 (destruct m as [|m]; [done|]). lia.
Qed.

Lemma save_av_and_clean_merged (ev : env) (d : Data.t) (w : world) :
  ev.(ffmpeg) = FfmpegExit 0 →
  d.(out_file_path) ≠ merged_path d →
  d.(audio_path) ≠ merged_path d →
  ∃ w', save_av_and_clean ev d w = (w', Ok tt)
        ∧ w'.(fs) !! merged_path d = Some MuxedFile.
Proof.
  intros Hff Hv Ha. unfold save_av_and_clean. rewrite Hff.
  unfold io_bind, emit, write_file, io_ret, os_path_exists, os_remove. cbn.
  destruct (bool_decide _); cbn; destruct (bool_decide _); cbn;
    eexists; (split; [reflexivity|]); cbn;
    rewrite ?lookup_delete_ne by done; by rewrite lookup_insert_eq.
Qed.

Lemma save_annotations_written (ev : env) (d : Data.t) (w : world) :
  ev.(json_open_raises) = false →
  ∃ d', save_annotations ev d w
        = (World (<[json_path d := JsonFile (json_of_annotations d')]>
                    w.(fs))
                 (w.(io_log) ++ [JsonOpen (json_path d)]),
           Ok d').
Proof.
  intros Hjson. unfold save_annotations, io_bind, emit, write_file, io_ret.
  cbn -[json_path json_of_annotations]. rewrite Hjson.
  eexists. reflexivity.
Qed.

(** X23.  What the recorder saves, the viewer finds.  For an output path
    [stem + ".mp4"] whose stem has no dot, and an audio path other than
    the merged one: when ffmpeg exits with 0, the annotation write
    succeeds and [save_data] returns, the merged video is at
    [stem + "_annotated.mp4"]; for that file [watch] looks for the
    timeline at [stem + "_annotated.json"], both files pass
    [_validate_files], and the timeline loaded is the one
    [save_annotations] dumped. *)
Theorem watch_finds_saved_timeline
    (ev : env) (d d' : Data.t) (w w' : world) (stem : string) :
  d.(out_file_path) = stem +:+ ".mp4" →
  has_dot stem = false →
  d.(audio_path) ≠ merged_path d →
  ev.(ffmpeg) = FfmpegExit 0 →
  ev.(json_open_raises) = false →
  save_data ev d w = (w', Ok d') →
  let watch_file := merged_path d in
  watch_file = stem +:+ "_annotated.mp4"
  ∧ meta_file watch_file = stem +:+ "_annotated.json"
  ∧ _validate_files watch_file (meta_file watch_file) w' = true
  ∧ load_metadata (meta_file watch_file) w'
    = Some (json_of_annotations d').
Proof.
  intros Hout Hs Haud Hff Hjson Hsave watch_file.
  assert (watch_file = stem +:+ "_annotated.mp4") as Hw
    by (unfold watch_file, merged_path; rewrite Hout;
        by apply replace_extension).
  assert (json_path d = stem +:+ "_annotated.json") as Hj
    by (unfold json_path; rewrite Hout; by apply replace_extension).
  assert (meta_file watch_file = json_path d) as Hm
    by (rewrite Hw, Hj; by apply meta_file_of_merged).
  split; [done|]. split; [by rewrite Hm|]. rewrite Hm.
  unfold save_data in Hsave.
  set (d0 := if String.eqb d.(out_path) "" then _ else d) in Hsave.
  assert (d0.(out_file_path) = d.(out_file_path)
          ∧ d0.(audio_path) = d.(audio_path)
          ∧ merged_path d0 = merged_path d
          ∧ json_path d0 = json_path d) as (Hout0 & Haud0 & Hmp0 & Hjp0).
  { unfold d0. by destruct (String.eqb _ _). }
  unfold io_bind in Hsave.
  destruct (process_video_data _ d0 w) as [w1 [[]|]]; [|done].
  destruct (process_audio_data ev d0 w1) as [w2 [[]|]]; [|done].
  destruct (save_av_and_clean_merged ev d0 w2) as (w3 & Hav & Hmerged).
  { done. }
  { rewrite Hout0, Hmp0. fold watch_file. rewrite Hw, Hout.
    intros Heq. apply (inj (String.append stem)) in Heq. done. }
  { by rewrite Haud0, Hmp0. }
  rewrite Hav in Hsave. rewrite Hmp0 in Hmerged. fold watch_file in Hmerged.
  destruct (save_annotations_written ev d0 w3 Hjson) as [d1 Hwr].
  rewrite Hwr, Hjp0 in Hsave. injection Hsave as <- <-.
  assert (json_path d ≠ watch_file) as Hne.
  { rewrite Hw, Hj. intros Heq. apply (inj (String.append stem)) in Heq. done. }
  split.
  - unfold _validate_files. cbn.
    rewrite lookup_insert_ne by done. rewrite Hmerged.
    rewrite lookup_insert_eq.
    rewrite !bool_decide_eq_true_2 by eauto. done.
  - unfold load_metadata. cbn. by rewrite lookup_insert_eq.
Qed.

Lemma watch_finds_saved_timeline_witness :
  ∃ w' d',
    save_data Examples.all_fine Examples.captured_store Examples.empty_world
    = (w', Ok d')
    ∧ meta_file "out/clip_annotated_annotated.mp4"
      = "out/clip_annotated_annotated.json"%string
    ∧ _validate_files "out/clip_annotated_annotated.mp4"
        (meta_file "out/clip_annotated_annotated.mp4") w' = true
    ∧ load_metadata (meta_file "out/clip_annotated_annotated.mp4") w'
      = Some (json_of_annotations d').
Proof.
  assert (∃ w' d', save_data Examples.all_fine Examples.captured_store
                             Examples.empty_world = (w', Ok d'))
    as (w' & d' & Hsave) by (vm_compute; eexists _, _; reflexivity).
  exists w', d'. split; [exact Hsave|].
  destruct (watch_finds_saved_timeline
              Examples.all_fine Examples.captured_store d'
              Examples.empty_world w' "out/clip_annotated")
    as (_ & Hm & Hv & Hl);
    [reflexivity | reflexivity | by vm_compute | reflexivity | reflexivity
    | exact Hsave |].
  change (merged_path Examples.captured_store)
    with "out/clip_annotated_annotated.mp4"%string in Hm, Hv, Hl.
  by split_and!.
Defined.

End SavedFiles.
